(** * Agentic RAG notebook (05-azure-ai-agent.ipynb): client-side orchestration

    The notebook uploads a document, builds a vector store over it, creates a
    hosted agent and a conversation thread, sends a fixed list of queries
    through [process_query], and deletes the four remote resources in a
    [finally] block.

    Everything the notebook computes itself is embedded here: the prompt
    template, the extraction of the answer from the fetched message list, the
    query loop and the cleanup.  The hosted service is an external
    collaborator: it is a parameter ([Service]) of the development, and every
    remote call may return or raise.  Effects are explicit: a computation is a
    function from a [World] (remote state, log of remote calls, standard
    output, process environment) to a [Result] and a new [World]. *)

From Stdlib Require Import String Ascii List Arith Lia Bool DecimalString.
Import ListNotations.

Local Open Scope string_scope.
Local Open Scope list_scope.

(** String concatenation, kept apart from list append. *)
Local Infix "+++" := String.append (right associativity, at level 60).

(** ** Data model *)

Definition Id := string.

(** Python exceptions the notebook can meet.  [Chained e c] is the exception
    [e] raised while [c] was being handled: Python keeps [c] as the
    [__context__] of [e]. *)
Inductive Exn : Type :=
| KeyError (key : string)        (* [d[key]] on a missing key *)
| ValueError (what : string)     (* raised by a constructor on a bad argument *)
| ServiceError (what : string)   (* raised by the remote client *)
| Chained (e context : Exn).

Inductive Result (A : Type) : Type :=
| Ok (a : A)
| Raise (e : Exn).
Arguments Ok {A} a.
Arguments Raise {A} e.

(** [azure.ai.projects.models.FilePurpose]: the member the notebook uses. *)
Inductive FilePurpose : Type := AGENTS.

(** [semantic_kernel.contents.utils.author_role.AuthorRole]. *)
Inductive AuthorRole : Type := SYSTEM | USER | ASSISTANT | TOOL.

(** Remote resource handles: opaque beyond their identifier. *)
Module UploadedFile.
Record t : Type := Build { id : Id }.
End UploadedFile.

Module VectorStore.
Record t : Type := Build { id : Id }.
End VectorStore.

Module Agent.
Record t : Type := Build { id : Id }.
End Agent.

Module AgentThread.
Record t : Type := Build { id : Id }.
End AgentThread.

(** The run returned by [create_and_process_run]; [status] is its terminal
    state ("completed", "failed", ...). *)
Module ThreadRun.
Record t : Type := Build { status : string }.
End ThreadRun.

(** Messages as [process_query] reads them: dict-like objects accessed with
    [.get(key, default)] and [[key]].  A key may be absent ([None] here); a
    key that is present holds a value of its type. *)
Record MessageText : Type := { value : option string }.

Record ContentBlock : Type := {
  type : option string;
  text : option MessageText
}.

Record Message : Type := {
  role : option AuthorRole;
  content : option (list ContentBlock)
}.

Record MessageList : Type := { data : option (list Message) }.

(** A content block of type "text" holding [s], and a message made of one. *)
Definition text_block (s : string) : ContentBlock :=
  {| type := Some "text"; text := Some {| value := Some s |} |}.

Definition text_message (r : AuthorRole) (s : string) : Message :=
  {| role := Some r; content := Some [text_block s] |}.

Record FileSearchTool : Type := { vector_store_ids : list Id }.

Definition ToolSet := list FileSearchTool.

(** The two clients of the notebook ([AIProjectClient] and the one opened by
    [AzureAIAgent.create_client]) are built from the same connection string
    and talk to the same remote project. *)
Record Client : Type := { conn_str : string }.

(** A kernel function of a plugin: two strings in, one string out. *)
Definition KernelFunction := string -> string -> string.

Module AzureAIAgent.
Record t : Type := Build {
  client : Client;
  definition : Agent.t;
  kernel : list (string * KernelFunction)
}.
Definition id (a : t) : Id := Agent.id (definition a).
(** [agent.kernel.add_plugin(plugin, plugin_name=...)] *)
Definition add_plugin (a : t) (plugin : KernelFunction) (plugin_name : string) : t :=
  Build (client a) (definition a) (kernel a ++ [(plugin_name, plugin)]).
End AzureAIAgent.

(** ** Remote calls and their log *)

Inductive Call : Type :=
| UploadFile (file_path : string) (purpose : FilePurpose)
| CreateVectorStore (file_ids : list Id) (name : string)
| CreateAgent (model name instructions : string) (toolset : ToolSet)
| CreateThread
| CreateMessage (thread_id : Id) (role : AuthorRole) (content : string)
| CreateAndProcessRun (thread_id assistant_id : Id)
| ListMessages (thread_id : Id)
| DeleteThread (thread_id : Id)
| DeleteAgent (agent_id : Id)
| DeleteFile (file_id : Id)
| DeleteVectorStore (vector_store_id : Id).

(** How a call ended: it returned (with the identifier of the resource it
    created, if it creates one) or it raised. *)
Inductive Outcome : Type :=
| Returned (created : option Id)
| Raised (e : Exn).

Record Event : Type := { ev_call : Call; ev_outcome : Outcome }.

(** The SDK and the remote service behind it: each remote operation takes
    the remote state and returns a result or raises, with the new remote
    state; the client constructors are local. *)
Record Service (R : Type) : Type := {
  svc_upload_file_and_poll : string -> FilePurpose -> R -> Result UploadedFile.t * R;
  svc_create_vector_store_and_poll : list Id -> string -> R -> Result VectorStore.t * R;
  svc_create_agent : string -> string -> string -> ToolSet -> R -> Result Agent.t * R;
  svc_create_thread : R -> Result AgentThread.t * R;
  svc_create_message : Id -> AuthorRole -> string -> R -> Result Message * R;
  svc_create_and_process_run : Id -> Id -> R -> Result ThreadRun.t * R;
  svc_list_messages : Id -> R -> Result MessageList * R;
  svc_delete_thread : Id -> R -> Result unit * R;
  svc_delete_agent : Id -> R -> Result unit * R;
  svc_delete_file : Id -> R -> Result unit * R;
  svc_delete_vector_store : Id -> R -> Result unit * R;
  (* the two client constructors of the SDK: they check the connection
     string, and return a client or raise, without any remote call *)
  svc_from_connection_string : string -> Result Client;
  svc_create_client : string -> Result Client
}.
Arguments svc_upload_file_and_poll {R}.
Arguments svc_create_vector_store_and_poll {R}.
Arguments svc_create_agent {R}.
Arguments svc_create_thread {R}.
Arguments svc_create_message {R}.
Arguments svc_create_and_process_run {R}.
Arguments svc_list_messages {R}.
Arguments svc_delete_thread {R}.
Arguments svc_delete_agent {R}.
Arguments svc_delete_file {R}.
Arguments svc_delete_vector_store {R}.
Arguments svc_from_connection_string {R}.
Arguments svc_create_client {R}.

(** ** The world and the monad of notebook code *)

Record World (R : Type) : Type := {
  remote : R;                         (* state of the hosted service *)
  calls : list Event;                 (* remote calls issued so far, oldest first *)
  stdout : list string;               (* one entry per [print] *)
  environ : list (string * string)    (* [os.environ] *)
}.
Arguments remote {R}.
Arguments calls {R}.
Arguments stdout {R}.
Arguments environ {R}.
Arguments Build_World {R}.

Definition M (R A : Type) : Type := World R -> Result A * World R.

Definition ret {R A} (a : A) : M R A := fun w => (Ok a, w).

Definition bind {R A B} (m : M R A) (k : A -> M R B) : M R B :=
  fun w =>
    match m w with
    | (Ok a, w1) => k a w1
    | (Raise e, w1) => (Raise e, w1)
    end.

Definition raise {R A} (e : Exn) : M R A := fun w => (Raise e, w).

Notation "x <- m ;; k" := (bind m (fun x => k))
  (at level 61, m at next level, right associativity).
Notation "m ;;; k" := (bind m (fun _ => k))
  (at level 61, right associativity).

(** [try: body finally: fin].  The finaliser runs on both exits of [body];
    an exception raised by the finaliser propagates in place of the pending
    one, which it carries as its context. *)
Definition try_finally {R A} (body : M R A) (fin : M R unit) : M R A :=
  fun w =>
    match body w with
    | (Ok a, w1) =>
        match fin w1 with
        | (Ok _, w2) => (Ok a, w2)
        | (Raise e', w2) => (Raise e', w2)
        end
    | (Raise e, w1) =>
        match fin w1 with
        | (Ok _, w2) => (Raise e, w2)
        | (Raise e', w2) => (Raise (Chained e' e), w2)
        end
    end.

(** [for x in xs: f(x)] *)
Fixpoint for_each {R A} (xs : list A) (f : A -> M R unit) : M R unit :=
  match xs with
  | [] => ret tt
  | x :: xs' => f x ;;; for_each xs' f
  end.

(** [print(s)] *)
Definition print {R} (s : string) : M R unit :=
  fun w => (Ok tt, Build_World (remote w) (calls w) (stdout w ++ [s]) (environ w)).

Fixpoint lookup (key : string) (d : list (string * string)) : option string :=
  match d with
  | [] => None
  | (k, v) :: d' => if String.eqb k key then Some v else lookup key d'
  end.

(** [os.environ[key]] *)
Definition environ_get {R} (key : string) : M R string :=
  fun w =>
    match lookup key (environ w) with
    | Some v => (Ok v, w)
    | None => (Raise (KeyError key), w)
    end.

(** [d.get(key, default)] on a possibly absent key. *)
Definition get {A} (field : option A) (default : A) : A :=
  match field with
  | Some a => a
  | None => default
  end.

(** [d[key]] on a possibly absent key. *)
Definition getitem {R A} (key : string) (field : option A) : M R A :=
  match field with
  | Some a => ret a
  | None => raise (KeyError key)
  end.

(** [str(v)] for an optional string ([None] prints as "None"). *)
Definition str (v : option string) : string :=
  match v with
  | Some s => s
  | None => "None"
  end.

Definition nl : string := String (ascii_of_nat 10) EmptyString.

(** [s * n] *)
Fixpoint repeat_string (s : string) (n : nat) : string :=
  match n with
  | O => EmptyString
  | S n' => s +++ repeat_string s n'
  end.

(** [content.get("type") == "text"] *)
Definition is_text (tag : option string) : bool :=
  match tag with
  | Some s => String.eqb s "text"
  | None => false
  end.

(** ** Prompt plugin (cell 5) *)

(** The fixed instruction that closes every augmented prompt. *)
Definition FALLBACK_INSTRUCTION : string :=
  "IMPORTANT: Answer ONLY based on the above context. If the context does not provide enough information, respond with 'Insufficient context provided.'".

Module PromptPlugin.
(** [PromptPlugin.build_augmented_prompt(query, retrieval_context)]: three
    adjacent string literals, two of them f-strings. *)
Definition build_augmented_prompt (query retrieval_context : string) : string :=
  ("Retrieved Context:" +++ nl +++ retrieval_context +++ nl +++ nl)
  +++ ("User Query: " +++ query +++ nl +++ nl)
  +++ FALLBACK_INSTRUCTION.

(** The fixed text around the two embedded strings. *)
Definition HEAD : string := "Retrieved Context:" +++ nl.
Definition MIDDLE : string := nl +++ nl +++ "User Query: ".
Definition TAIL : string := nl +++ nl.
End PromptPlugin.

(** ** The notebook's code over an arbitrary remote service *)

Section Notebook.

Context {R : Type}.
Variable svc : Service R.

(** One remote call: the service handles it on the remote state, and the
    call is logged with its outcome. *)
Definition invoke {A} (c : Call) (created : A -> option Id)
    (handler : R -> Result A * R) : M R A :=
  fun w =>
    match handler (remote w) with
    | (Ok a, r') =>
        (Ok a, Build_World r' (calls w ++ [Build_Event c (Returned (created a))])
                 (stdout w) (environ w))
    | (Raise e, r') =>
        (Raise e, Build_World r' (calls w ++ [Build_Event c (Raised e)])
                    (stdout w) (environ w))
    end.

Definition no_resource {A} (_ : A) : option Id := None.

(** The [client.agents.*] operations the notebook calls. *)
Definition agents_upload_file_and_poll (_ : Client) (file_path : string)
    (purpose : FilePurpose) : M R UploadedFile.t :=
  invoke (UploadFile file_path purpose) (fun f => Some (UploadedFile.id f))
    (svc_upload_file_and_poll svc file_path purpose).

Definition agents_create_vector_store_and_poll (_ : Client) (file_ids : list Id)
    (name : string) : M R VectorStore.t :=
  invoke (CreateVectorStore file_ids name) (fun v => Some (VectorStore.id v))
    (svc_create_vector_store_and_poll svc file_ids name).

Definition agents_create_agent (_ : Client) (model name instructions : string)
    (toolset : ToolSet) : M R Agent.t :=
  invoke (CreateAgent model name instructions toolset) (fun a => Some (Agent.id a))
    (svc_create_agent svc model name instructions toolset).

Definition agents_create_thread (_ : Client) : M R AgentThread.t :=
  invoke CreateThread (fun t => Some (AgentThread.id t)) (svc_create_thread svc).

Definition agents_create_message (_ : Client) (thread_id : Id) (role : AuthorRole)
    (content : string) : M R Message :=
  invoke (CreateMessage thread_id role content) no_resource
    (svc_create_message svc thread_id role content).

Definition agents_create_and_process_run (_ : Client) (thread_id assistant_id : Id)
    : M R ThreadRun.t :=
  invoke (CreateAndProcessRun thread_id assistant_id) no_resource
    (svc_create_and_process_run svc thread_id assistant_id).

Definition agents_list_messages (_ : Client) (thread_id : Id) : M R MessageList :=
  invoke (ListMessages thread_id) no_resource (svc_list_messages svc thread_id).

Definition agents_delete_thread (_ : Client) (thread_id : Id) : M R unit :=
  invoke (DeleteThread thread_id) no_resource (svc_delete_thread svc thread_id).

Definition agents_delete_agent (_ : Client) (agent_id : Id) : M R unit :=
  invoke (DeleteAgent agent_id) no_resource (svc_delete_agent svc agent_id).

Definition agents_delete_file (_ : Client) (file_id : Id) : M R unit :=
  invoke (DeleteFile file_id) no_resource (svc_delete_file svc file_id).

Definition agents_delete_vector_store (_ : Client) (vector_store_id : Id) : M R unit :=
  invoke (DeleteVectorStore vector_store_id) no_resource
    (svc_delete_vector_store svc vector_store_id).

(** A local call of the SDK: its result, the world untouched. *)
Definition local {A} (result : Result A) : M R A := fun w => (result, w).

(** [AIProjectClient.from_connection_string] and
    [AzureAIAgent.create_client], both with
    [conn_str=os.environ["PROJECT_CONNECTION_STRING"]]: the environment is
    read first, then the constructor checks the string. *)
Definition from_connection_string : M R Client :=
  c <- environ_get "PROJECT_CONNECTION_STRING" ;;
  local (svc_from_connection_string svc c).

Definition create_client : M R Client :=
  c <- environ_get "PROJECT_CONNECTION_STRING" ;;
  local (svc_create_client svc c).

(** *** Cells 3 and 4: provisioning and tool binding *)

(** The globals later cells read. *)
Record Globals : Type := {
  project_client : Client;
  uploaded_file : UploadedFile.t;
  vector_store : VectorStore.t;
  toolset : ToolSet
}.

(** Cell 3. *)
Definition provision : M R (Client * UploadedFile.t * VectorStore.t) :=
  project_client <- from_connection_string ;;
  uploaded_file <- agents_upload_file_and_poll project_client "document.md" AGENTS ;;
  print ("Uploaded file, file ID: " +++ UploadedFile.id uploaded_file) ;;;
  vector_store <- agents_create_vector_store_and_poll project_client
                    [UploadedFile.id uploaded_file] "vector_store" ;;
  print ("Created vector store, vector store ID: " +++ VectorStore.id vector_store) ;;;
  ret (project_client, uploaded_file, vector_store).

(** Cell 4. *)
Definition bind_tools (vector_store : VectorStore.t) : ToolSet :=
  let file_search_tool := Build_FileSearchTool [VectorStore.id vector_store] in
  let toolset : ToolSet := [] in
  toolset ++ [file_search_tool].

(** *** Cell 6: [process_query] *)

(** The loop over the content blocks of the first message. *)
Definition print_text_blocks (blocks : list ContentBlock) : M R unit :=
  for_each blocks (fun content =>
    if is_text (type content)
    then t <- getitem "text" (text content) ;;
         print ("Text: " +++ str (value t))
    else ret tt).

Definition SEPARATOR : string := nl +++ repeat_string "=" 60 +++ nl.

Definition process_query (project_client : Client) (agent : AzureAIAgent.t)
    (thread_id : Id) (user_query : string) : M R unit :=
  print (nl +++ "Processing query: " +++ user_query) ;;;
  message <- agents_create_message project_client thread_id USER user_query ;;
  run <- agents_create_and_process_run project_client thread_id (AzureAIAgent.id agent) ;;
  messages <- agents_list_messages project_client thread_id ;;
  print "Responses:" ;;;
  let main_data := get (data messages) [] in
  match main_data with
  | first_msg :: _ => print_text_blocks (get (content first_msg) [])
  | [] => ret tt
  end ;;;
  print SEPARATOR.

(** *** Cell 7: [main] *)

Definition AGENT_NAME : string := "RAGAgent".

Definition AGENT_INSTRUCTIONS : string :=
  "You are an AI assistant that provides accurate information based on the provided context. "
  +++ "Only use information from the retrieved context to answer questions. "
  +++ "If the context doesn't contain relevant information, clearly state that. "
  +++ "Provide concise and accurate responses.".

Definition user_inputs : list string :=
  [ "Can you explain Contoso's travel insurance coverage?";
    "What is Neural Network?" ].

(** The body of the [try]: the query loop. *)
Definition query_loop (project_client : Client) (agent : AzureAIAgent.t)
    (thread_id : Id) (user_inputs : list string) : M R unit :=
  for_each user_inputs (fun user_query =>
    process_query project_client agent thread_id user_query).

(** The body of the [finally]: the cleanup. *)
Definition cleanup (g : Globals) (client : Client) (agent : AzureAIAgent.t)
    (thread : AgentThread.t) : M R unit :=
  agents_delete_thread client (AgentThread.id thread) ;;;
  agents_delete_agent client (AzureAIAgent.id agent) ;;;
  agents_delete_file (project_client g) (UploadedFile.id (uploaded_file g)) ;;;
  agents_delete_vector_store (project_client g) (VectorStore.id (vector_store g)) ;;;
  print (nl +++ "Cleaned up agent, thread, file, and vector store.").

(** The [try ... finally] statement of [main], for any list of queries. *)
Definition run_queries (g : Globals) (client : Client) (agent : AzureAIAgent.t)
    (thread : AgentThread.t) (user_inputs : list string) : M R unit :=
  try_finally
    (query_loop (project_client g) agent (AgentThread.id thread) user_inputs)
    (cleanup g client agent thread).

(** [async with AzureAIAgent.create_client(...) as client]: leaving the
    block closes the local client object and issues none of the calls above,
    so the block is its body. *)
Definition main (g : Globals) : M R unit :=
  client <- create_client ;;
  agent_definition <- agents_create_agent client "gpt-4o-mini" AGENT_NAME
                        AGENT_INSTRUCTIONS (toolset g) ;;
  let agent := AzureAIAgent.Build client agent_definition [] in
  let agent := AzureAIAgent.add_plugin agent PromptPlugin.build_augmented_prompt
                 "promptPlugin" in
  thread <- agents_create_thread client ;;
  print ("Created thread, thread ID: " +++ AgentThread.id thread) ;;;
  run_queries g client agent thread user_inputs.

(** The notebook, cell after cell. *)
Definition notebook : M R unit :=
  p <- provision ;;
  let '(project_client, uploaded_file, vector_store) := p in
  let toolset := bind_tools vector_store in
  main (Build_Globals project_client uploaded_file vector_store toolset).

End Notebook.

(** ** An in-memory service

    A test double in the shape the notebook relies on: identifiers are
    assigned from a counter, a thread is an ordered log of messages listed
    most recent first, a run appends whatever the agent replies, and a
    deletion of an unknown identifier raises.  [faulty] injects failures. *)

Module Fake.

Record State : Type := {
  next_id : nat;
  files : list Id;
  stores : list (Id * list Id);
  agents : list Id;
  threads : list (Id * list Message)   (* each log: most recent first *)
}.

Record Config : Type := {
  (* fault injection: the calls that raise, given the remote state *)
  faulty : State -> Call -> bool;
  (* the agent: from the thread's log to the run and the messages it adds *)
  agent_reply : list Message -> ThreadRun.t * list Message;
  (* how [list_messages] presents a thread's log *)
  listing : list Message -> MessageList
}.

Definition empty : State := Build_State 1 [] [] [] [].

Definition fresh (prefix : string) (s : State) : Id :=
  prefix +++ NilEmpty.string_of_uint (Nat.to_uint (next_id s)).

Definition mem (i : Id) (l : list Id) : bool := existsb (String.eqb i) l.

Definition remove (i : Id) (l : list Id) : list Id :=
  filter (fun j => negb (String.eqb i j)) l.

Fixpoint find {A} (i : Id) (l : list (Id * A)) : option A :=
  match l with
  | [] => None
  | (j, a) :: l' => if String.eqb i j then Some a else find i l'
  end.

Definition drop {A} (i : Id) (l : list (Id * A)) : list (Id * A) :=
  filter (fun p => negb (String.eqb i (fst p))) l.

Definition not_found {A} (s : State) : Result A * State :=
  (Raise (ServiceError "not found"), s).

Definition unavailable {A} (s : State) : Result A * State :=
  (Raise (ServiceError "service unavailable"), s).

(** Number of [";"] in a string. *)
Fixpoint semicolons (s : string) : nat :=
  match s with
  | EmptyString => 0
  | String ch s' => (if Ascii.eqb ch ";" then 1 else 0) + semicolons s'
  end.

(** The check both client constructors make: the connection string is not
    empty and has four parts separated by [";"]. *)
Definition connect (conn_str : string) : Result Client :=
  match conn_str with
  | EmptyString => Raise (ValueError "Connection string is required")
  | _ =>
      if Nat.eqb (semicolons conn_str) 3 then Ok (Build_Client conn_str)
      else Raise (ValueError "Invalid connection string format")
  end.

Section WithConfig.

Variable cfg : Config.

Definition upload_file_and_poll (file_path : string) (purpose : FilePurpose)
    (s : State) : Result UploadedFile.t * State :=
  if faulty cfg s (UploadFile file_path purpose) then unavailable s else
  let i := fresh "file_" s in
  (Ok (UploadedFile.Build i),
   Build_State (S (next_id s)) (i :: files s) (stores s) (agents s) (threads s)).

Definition create_vector_store_and_poll (file_ids : list Id) (name : string)
    (s : State) : Result VectorStore.t * State :=
  if faulty cfg s (CreateVectorStore file_ids name) then unavailable s else
  if forallb (fun i => mem i (files s)) file_ids then
    let i := fresh "vs_" s in
    (Ok (VectorStore.Build i),
     Build_State (S (next_id s)) (files s) ((i, file_ids) :: stores s) (agents s)
       (threads s))
  else not_found s.

Definition create_agent (model name instructions : string) (toolset : ToolSet)
    (s : State) : Result Agent.t * State :=
  if faulty cfg s (CreateAgent model name instructions toolset) then unavailable s else
  let i := fresh "agent_" s in
  (Ok (Agent.Build i),
   Build_State (S (next_id s)) (files s) (stores s) (i :: agents s) (threads s)).

Definition create_thread (s : State) : Result AgentThread.t * State :=
  if faulty cfg s CreateThread then unavailable s else
  let i := fresh "thread_" s in
  (Ok (AgentThread.Build i),
   Build_State (S (next_id s)) (files s) (stores s) (agents s) ((i, []) :: threads s)).

Definition create_message (thread_id : Id) (r : AuthorRole) (c : string)
    (s : State) : Result Message * State :=
  if faulty cfg s (CreateMessage thread_id r c) then unavailable s else
  match find thread_id (threads s) with
  | Some log =>
      let m := text_message r c in
      (Ok m,
       Build_State (next_id s) (files s) (stores s) (agents s)
         ((thread_id, m :: log) :: drop thread_id (threads s)))
  | None => not_found s
  end.

Definition create_and_process_run (thread_id assistant_id : Id)
    (s : State) : Result ThreadRun.t * State :=
  if faulty cfg s (CreateAndProcessRun thread_id assistant_id) then unavailable s else
  match find thread_id (threads s) with
  | Some log =>
      if mem assistant_id (agents s) then
        let (run, added) := agent_reply cfg log in
        (Ok run,
         Build_State (next_id s) (files s) (stores s) (agents s)
           ((thread_id, added ++ log) :: drop thread_id (threads s)))
      else not_found s
  | None => not_found s
  end.

Definition list_messages (thread_id : Id) (s : State) : Result MessageList * State :=
  if faulty cfg s (ListMessages thread_id) then unavailable s else
  match find thread_id (threads s) with
  | Some log => (Ok (listing cfg log), s)
  | None => not_found s
  end.

Definition delete_thread (i : Id) (s : State) : Result unit * State :=
  if faulty cfg s (DeleteThread i) then unavailable s else
  match find i (threads s) with
  | Some _ =>
      (Ok tt, Build_State (next_id s) (files s) (stores s) (agents s) (drop i (threads s)))
  | None => not_found s
  end.

Definition delete_agent (i : Id) (s : State) : Result unit * State :=
  if faulty cfg s (DeleteAgent i) then unavailable s else
  if mem i (agents s) then
    (Ok tt, Build_State (next_id s) (files s) (stores s) (remove i (agents s)) (threads s))
  else not_found s.

Definition delete_file (i : Id) (s : State) : Result unit * State :=
  if faulty cfg s (DeleteFile i) then unavailable s else
  if mem i (files s) then
    (Ok tt, Build_State (next_id s) (remove i (files s)) (stores s) (agents s) (threads s))
  else not_found s.

Definition delete_vector_store (i : Id) (s : State) : Result unit * State :=
  if faulty cfg s (DeleteVectorStore i) then unavailable s else
  match find i (stores s) with
  | Some _ =>
      (Ok tt, Build_State (next_id s) (files s) (drop i (stores s)) (agents s) (threads s))
  | None => not_found s
  end.

Definition service : Service State :=
  Build_Service State
    upload_file_and_poll create_vector_store_and_poll create_agent create_thread
    create_message create_and_process_run list_messages
    delete_thread delete_agent delete_file delete_vector_store
    connect connect.

End WithConfig.

(** The process starts with the connection string set and nothing remote. *)
Definition world0 : World State :=
  Build_World empty [] [] [("PROJECT_CONNECTION_STRING", "endpoint;subscription;group;project")].

(** Number of remote resources that exist. *)
Definition resources (s : State) : nat :=
  length (files s) + length (stores s) + length (agents s) + length (threads s).

End Fake.

(** ** Resources a log of calls leaves behind *)

Inductive Resource : Type :=
| FileResource (i : Id)
| VectorStoreResource (i : Id)
| AgentResource (i : Id)
| ThreadResource (i : Id).

Definition resource_eqb (a b : Resource) : bool :=
  match a, b with
  | FileResource i, FileResource j => String.eqb i j
  | VectorStoreResource i, VectorStoreResource j => String.eqb i j
  | AgentResource i, AgentResource j => String.eqb i j
  | ThreadResource i, ThreadResource j => String.eqb i j
  | _, _ => false
  end.

(** The resource a returned creation call brought into existence. *)
Definition created_by (e : Event) : option Resource :=
  match ev_call e, ev_outcome e with
  | UploadFile _ _, Returned (Some i) => Some (FileResource i)
  | CreateVectorStore _ _, Returned (Some i) => Some (VectorStoreResource i)
  | CreateAgent _ _ _ _, Returned (Some i) => Some (AgentResource i)
  | CreateThread, Returned (Some i) => Some (ThreadResource i)
  | _, _ => None
  end.

(** The resource a returned deletion call removed. *)
Definition deleted_by (e : Event) : option Resource :=
  match ev_call e, ev_outcome e with
  | DeleteThread i, Returned _ => Some (ThreadResource i)
  | DeleteAgent i, Returned _ => Some (AgentResource i)
  | DeleteFile i, Returned _ => Some (FileResource i)
  | DeleteVectorStore i, Returned _ => Some (VectorStoreResource i)
  | _, _ => None
  end.

Definition owned_step (acc : list Resource) (e : Event) : list Resource :=
  match created_by e with
  | Some r => acc ++ [r]
  | None =>
      match deleted_by e with
      | Some r => filter (fun r' => negb (resource_eqb r r')) acc
      | None => acc
      end
  end.

(** Resources created and not yet deleted by the calls of [log], in order of
    creation. *)
Definition owned (log : list Event) : list Resource := fold_left owned_step log [].

(** The calls logged between two worlds of one execution. *)
Definition issued_after {R} (w w' : World R) : list Event :=
  skipn (length (calls w)) (calls w').

(** ** What [process_query] calls and prints *)

(** The three remote calls of one query, in the order of the source. *)
Definition query_calls (thread_id assistant_id : Id) (user_query : string) : list Call :=
  [ CreateMessage thread_id USER user_query;
    CreateAndProcessRun thread_id assistant_id;
    ListMessages thread_id ].

Definition is_text_block (b : ContentBlock) : bool := is_text (type b).

(** A text-type block carries its ["text"] key. *)
Definition has_payload (b : ContentBlock) : bool :=
  if is_text_block b then
    match text b with Some _ => true | None => false end
  else true.

(** The line printed for a text-type block. *)
Definition answer_line (b : ContentBlock) : string :=
  "Text: " +++ str (match text b with Some t => value t | None => None end).

(** The answer lines among printed lines. *)
Definition answers (out : list string) : list string :=
  filter (String.prefix "Text: ") out.

(** The append-message calls of a log: thread, role and content of each. *)
Definition appends (evs : list Event) : list (Id * AuthorRole * string) :=
  flat_map (fun e =>
    match ev_call e with
    | CreateMessage t r c => [(t, r, c)]
    | _ => []
    end) evs.

(** The run calls of a log: thread and agent of each. *)
Definition runs (evs : list Event) : list (Id * Id) :=
  flat_map (fun e =>
    match ev_call e with
    | CreateAndProcessRun t a => [(t, a)]
    | _ => []
    end) evs.

(** Number of calls of a log that satisfy [p]. *)
Definition count_calls (p : Call -> bool) (evs : list Event) : nat :=
  length (filter (fun e => p (ev_call e)) evs).

(** ** The cleanup's calls *)

Definition returned (c : Call) : Event := Build_Event c (Returned None).

Definition raised (c : Call) (e : Exn) : Event := Build_Event c (Raised e).

(** The four deletion calls of the [finally] block, in the order of the
    source: thread, agent, uploaded file, vector store. *)
Definition deletion_calls (g : Globals) (agent : AzureAIAgent.t) (thread : AgentThread.t)
    : list Call :=
  [ DeleteThread (AgentThread.id thread);
    DeleteAgent (AzureAIAgent.id agent);
    DeleteFile (UploadedFile.id (uploaded_file g));
    DeleteVectorStore (VectorStore.id (vector_store g)) ].

(** ** Scenarios on the in-memory service *)

Module Scenario.

Definition healthy (_ : Fake.State) (_ : Call) : bool := false.

Definition is_run (c : Call) : bool :=
  match c with CreateAndProcessRun _ _ => true | _ => false end.

Definition is_delete_thread (c : Call) : bool :=
  match c with DeleteThread _ => true | _ => false end.

Definition is_delete_agent (c : Call) : bool :=
  match c with DeleteAgent _ => true | _ => false end.

Definition is_delete_file (c : Call) : bool :=
  match c with DeleteFile _ => true | _ => false end.

(** Messages held by the service, all threads together. *)
Definition held (s : Fake.State) : nat :=
  list_sum (map (fun t => length (snd t)) (Fake.threads s)).

(** Runs raise once the service holds more than two messages: the first
    query of a fresh thread goes through, the second does not. *)
Definition second_run_fails (s : Fake.State) (c : Call) : bool :=
  is_run c && Nat.ltb 2 (held s).

(** As [second_run_fails], and the thread cannot be deleted either. *)
Definition second_run_and_thread_deletion_fail (s : Fake.State) (c : Call) : bool :=
  second_run_fails s c || is_delete_thread c.

(** The agent answers every run with one canned assistant message. *)
Definition canned (_ : list Message) : ThreadRun.t * list Message :=
  (ThreadRun.Build "completed", [text_message ASSISTANT "Coverage includes X"]).

(** The agent answers with one message of two text blocks. *)
Definition two_block_message : Message :=
  {| role := Some ASSISTANT;
     content := Some [text_block "Coverage includes X";
                      text_block "See section 4 of the policy"] |}.

Definition two_blocks (_ : list Message) : ThreadRun.t * list Message :=
  (ThreadRun.Build "completed", [two_block_message]).

(** The run ends in the failed state and adds no message. *)
Definition silent_failure (_ : list Message) : ThreadRun.t * list Message :=
  (ThreadRun.Build "failed", []).

(** The run adds one assistant message without any text block. *)
Definition image_message : Message :=
  {| role := Some ASSISTANT;
     content := Some [ {| type := Some "image_file"; text := None |} ] |}.

Definition image_only (_ : list Message) : ThreadRun.t * list Message :=
  (ThreadRun.Build "completed", [image_message]).

(** The listing shows the whole log, most recent message first. *)
Definition whole_log (log : list Message) : MessageList := {| data := Some log |}.

(** The listing comes back without any message. *)
Definition no_data (_ : list Message) : MessageList := {| data := None |}.

Definition env : list (string * string) :=
  [("PROJECT_CONNECTION_STRING", "endpoint;subscription;group;project")].

Definition the_client : Client := Build_Client "endpoint;subscription;group;project".

Definition the_file : UploadedFile.t := UploadedFile.Build "file_1".

Definition the_store : VectorStore.t := VectorStore.Build "vs_2".

Definition the_thread : AgentThread.t := AgentThread.Build "thread_4".

Definition globals : Globals :=
  Build_Globals the_client the_file the_store (bind_tools the_store).

Definition the_agent : AzureAIAgent.t :=
  AzureAIAgent.add_plugin (AzureAIAgent.Build the_client (Agent.Build "agent_3") [])
    PromptPlugin.build_augmented_prompt "promptPlugin".

(** The remote state once file, store, agent and thread exist. *)
Definition ready_state : Fake.State :=
  Fake.Build_State 5 ["file_1"] [("vs_2", ["file_1"])] ["agent_3"] [("thread_4", [])].

(** The same, with the given log in the thread. *)
Definition with_log (log : list Message) : Fake.State :=
  Fake.Build_State 5 ["file_1"] [("vs_2", ["file_1"])] ["agent_3"] [("thread_4", log)].

Definition QUERY : string := "Explain coverage".

(** The world in which [main] enters its [try] statement. *)
Definition ready : World Fake.State := Build_World ready_state [] [] env.

End Scenario.

(** Services that fail on one kind of call. *)
Module Run.

Definition ERR : Exn := ServiceError "service unavailable".

Definition thread_undeletable : Service Fake.State :=
  Fake.service (Fake.Build_Config (fun _ => Scenario.is_delete_thread) Scenario.canned Scenario.whole_log).

Definition agent_undeletable : Service Fake.State :=
  Fake.service (Fake.Build_Config (fun _ => Scenario.is_delete_agent) Scenario.canned Scenario.whole_log).

Definition healthy : Service Fake.State :=
  Fake.service (Fake.Build_Config Scenario.healthy Scenario.canned Scenario.whole_log).

Definition runs_fail : Service Fake.State :=
  Fake.service (Fake.Build_Config (fun _ => Scenario.is_run) Scenario.canned
                  Scenario.whole_log).

Definition second_run_fails : Service Fake.State :=
  Fake.service (Fake.Build_Config Scenario.second_run_fails Scenario.canned
                  Scenario.whole_log).

Definition second_run_and_thread_deletion_fail : Service Fake.State :=
  Fake.service (Fake.Build_Config Scenario.second_run_and_thread_deletion_fail
                  Scenario.canned Scenario.whole_log).

Definition two_blocks : Service Fake.State :=
  Fake.service (Fake.Build_Config Scenario.healthy Scenario.two_blocks Scenario.whole_log).

Definition silent_failure : Service Fake.State :=
  Fake.service (Fake.Build_Config Scenario.healthy Scenario.silent_failure
                  Scenario.whole_log).

Definition image_only : Service Fake.State :=
  Fake.service (Fake.Build_Config Scenario.healthy Scenario.image_only Scenario.whole_log).

Definition no_data : Service Fake.State :=
  Fake.service (Fake.Build_Config Scenario.healthy Scenario.canned Scenario.no_data).

(** The world the provisioning cell leaves on a healthy service. *)
Definition provisioned : World Fake.State :=
  Build_World (Fake.Build_State 3 ["file_1"] [("vs_2", ["file_1"])] [] [])
    [ Build_Event (UploadFile "document.md" AGENTS) (Returned (Some "file_1"));
      Build_Event (CreateVectorStore ["file_1"] "vector_store") (Returned (Some "vs_2")) ]
    [ "Uploaded file, file ID: file_1";
      "Created vector store, vector store ID: vs_2" ]
    Scenario.env.

(** One query against the ready world. *)
Definition ask (svc : Service Fake.State) : Result unit * World Fake.State :=
  process_query svc Scenario.the_client Scenario.the_agent "thread_4" Scenario.QUERY
    Scenario.ready.

(** The [try] statement of [main] against the ready world. *)
Definition batch (svc : Service Fake.State) (user_inputs : list string)
    : Result unit * World Fake.State :=
  run_queries svc Scenario.globals Scenario.the_client Scenario.the_agent
    Scenario.the_thread user_inputs Scenario.ready.

Definition file_undeletable : Service Fake.State :=
  Fake.service (Fake.Build_Config (fun _ => Scenario.is_delete_file) Scenario.canned Scenario.whole_log).

End Run.

(** ** More scenarios: failures before and inside the query loop *)

(** The four resources the cleanup deletes. *)
Definition released (g : Globals) (agent : AzureAIAgent.t) (thread : AgentThread.t)
    : list Resource :=
  [ ThreadResource (AgentThread.id thread);
    AgentResource (AzureAIAgent.id agent);
    FileResource (UploadedFile.id (uploaded_file g));
    VectorStoreResource (VectorStore.id (vector_store g)) ].

(** A creation call that returned the resource [i]. *)
Definition created (c : Call) (i : Id) : Event := Build_Event c (Returned (Some i)).

Definition CONNECTION_KEY : string := "PROJECT_CONNECTION_STRING".

Definition CLEANED_UP : string := nl +++ "Cleaned up agent, thread, file, and vector store.".

(** The agent object [main] builds from the client and the definition the
    service returned, with the prompt plugin registered. *)
Definition agent_of (client : Client) (agent_definition : Agent.t) : AzureAIAgent.t :=
  AzureAIAgent.add_plugin (AzureAIAgent.Build client agent_definition [])
    PromptPlugin.build_augmented_prompt "promptPlugin".

(** The call [main] makes to create the agent, for a given toolset. *)
Definition create_agent_call (toolset : ToolSet) : Call :=
  CreateAgent "gpt-4o-mini" AGENT_NAME AGENT_INSTRUCTIONS toolset.

(** The calls [process_query] can make. *)
Definition is_query_call (c : Call) : bool :=
  match c with
  | CreateMessage _ _ _ | CreateAndProcessRun _ _ | ListMessages _ => true
  | _ => false
  end.

Module Faults.

Definition is_upload (c : Call) : bool :=
  match c with UploadFile _ _ => true | _ => false end.

Definition is_create_store (c : Call) : bool :=
  match c with CreateVectorStore _ _ => true | _ => false end.

Definition is_create_agent (c : Call) : bool :=
  match c with CreateAgent _ _ _ _ => true | _ => false end.

Definition is_create_thread (c : Call) : bool :=
  match c with CreateThread => true | _ => false end.

Definition is_create_message (c : Call) : bool :=
  match c with CreateMessage _ _ _ => true | _ => false end.

Definition is_list (c : Call) : bool :=
  match c with ListMessages _ => true | _ => false end.

Definition failing (p : Call -> bool) : Service Fake.State :=
  Fake.service (Fake.Build_Config (fun _ => p) Scenario.canned Scenario.whole_log).

(** An answer whose second text block lacks its "text" key. *)
Definition broken_message : Message :=
  {| role := Some ASSISTANT;
     content := Some [ text_block "Coverage includes X";
                       {| type := Some "text"; text := None |};
                       text_block "never printed" ] |}.

Definition broken_reply (_ : list Message) : ThreadRun.t * list Message :=
  (ThreadRun.Build "completed", [broken_message]).

Definition broken : Service Fake.State :=
  Fake.service (Fake.Build_Config Scenario.healthy broken_reply Scenario.whole_log).

(** A process started without the connection string. *)
Definition unconfigured : World Fake.State := Build_World Fake.empty [] [] [].

(** The globals after provisioning on a healthy service. *)
Definition provisioned_globals : Globals :=
  Build_Globals Scenario.the_client Scenario.the_file Scenario.the_store
    (bind_tools Scenario.the_store).

(** The remote state after the upload alone. *)
Definition uploaded_state : Fake.State := Fake.Build_State 2 ["file_1"] [] [] [].

(** The remote state after the creation of the agent. *)
Definition agent_state : Fake.State :=
  Fake.Build_State 4 ["file_1"] [("vs_2", ["file_1"])] ["agent_3"] [].

(** The world in which [main] enters its [try] statement, with the log of
    the four creations behind it. *)
Definition started : World Fake.State :=
  Build_World Scenario.ready_state
    [ created (UploadFile "document.md" AGENTS) "file_1";
      created (CreateVectorStore ["file_1"] "vector_store") "vs_2";
      created (create_agent_call (bind_tools Scenario.the_store)) "agent_3";
      created CreateThread "thread_4" ]
    [ "Uploaded file, file ID: file_1";
      "Created vector store, vector store ID: vs_2";
      "Created thread, thread ID: thread_4" ]
    Scenario.env.

(** The answer is broken and the thread cannot be deleted. *)
Definition broken_and_thread_undeletable : Service Fake.State :=
  Fake.service (Fake.Build_Config (fun _ => Scenario.is_delete_thread) broken_reply
                  Scenario.whole_log).

Definition Q1 : string := "Can you explain Contoso's travel insurance coverage?".
Definition Q2 : string := "What is Neural Network?".
Definition Q3 : string := "What is covered abroad?".

End Faults.

(** * Facts *)

(** ** Strings *)

Lemma append_assoc (a b c : string) : (a +++ b) +++ c = a +++ (b +++ c).
Proof.
  induction a as [| ch a IH]; simpl; [reflexivity | now rewrite IH].
Qed.

Lemma length_append (a b : string) :
  String.length (a +++ b) = String.length a + String.length b.
Proof.
  induction a as [| ch a IH]; simpl; [reflexivity | now rewrite IH].
Qed.

Lemma substring_prefix (b c : string) :
  substring 0 (String.length b) (b +++ c) = b.
Proof.
  induction b as [| ch b IH]; simpl.
  - destruct c; reflexivity.
  - now rewrite IH.
Qed.

(** Reading [length b] characters after skipping [a] in [a ++ b ++ c] gives
    back [b] unchanged. *)
Lemma substring_middle (a b c : string) :
  substring (String.length a) (String.length b) (a +++ b +++ c) = b.
Proof.
  induction a as [| ch a IH]; simpl.
  - apply substring_prefix.
  - exact IH.
Qed.

Lemma append_nil_r (a : string) : a +++ EmptyString = a.
Proof.
  induction a as [| ch a IH]; simpl; [reflexivity | now rewrite IH].
Qed.

Lemma substring_at (pre b post out : string) (n : nat) :
  out = pre +++ b +++ post ->
  n = String.length pre ->
  substring n (String.length b) out = b.
Proof.
  intros -> ->. apply substring_middle.
Qed.

(** ** Prompt Augmenter *)

Module PromptFacts.

Lemma build_augmented_prompt_shape (query retrieval_context : string) :
  PromptPlugin.build_augmented_prompt query retrieval_context =
  PromptPlugin.HEAD +++ retrieval_context +++ PromptPlugin.MIDDLE +++ query +++ PromptPlugin.TAIL +++ FALLBACK_INSTRUCTION.
Proof.
  unfold PromptPlugin.build_augmented_prompt, PromptPlugin.HEAD, PromptPlugin.MIDDLE, PromptPlugin.TAIL.
  repeat rewrite append_assoc. reflexivity.
Qed.

Lemma build_augmented_prompt_length (query retrieval_context : string) :
  String.length (PromptPlugin.build_augmented_prompt query retrieval_context) =
  String.length retrieval_context + String.length query
  + (String.length PromptPlugin.HEAD + String.length PromptPlugin.MIDDLE + String.length PromptPlugin.TAIL
     + String.length FALLBACK_INSTRUCTION).
Proof.
  rewrite build_augmented_prompt_shape.
  repeat rewrite length_append. lia.
Qed.

(** An augmented prompt is never the bare query it was built from. *)
Lemma build_augmented_prompt_not_query (query retrieval_context : string) :
  PromptPlugin.build_augmented_prompt query retrieval_context <> query.
Proof.
  intro H. apply (f_equal String.length) in H.
  rewrite build_augmented_prompt_length in H.
  assert (0 < String.length PromptPlugin.HEAD) by (vm_compute; lia).
  lia.
Qed.

End PromptFacts.

(** C5.  For every pair of strings (query, context), the output of
    [build_augmented_prompt] holds the context, then the query, then the fixed
    fallback instruction: each is the substring of the output found at an
    offset past the end of the previous one, character for character, and the
    output has no other variable part (its length is the two lengths plus a
    constant), so nothing is escaped or cut. *)
Theorem build_augmented_prompt_embeds_verbatim (query retrieval_context : string) :
  let out := PromptPlugin.build_augmented_prompt query retrieval_context in
  let at_context := String.length PromptPlugin.HEAD in
  let at_query := at_context + String.length retrieval_context
                  + String.length PromptPlugin.MIDDLE in
  let at_instruction := at_query + String.length query + String.length PromptPlugin.TAIL in
  substring at_context (String.length retrieval_context) out = retrieval_context
  /\ substring at_query (String.length query) out = query
  /\ substring at_instruction (String.length FALLBACK_INSTRUCTION) out = FALLBACK_INSTRUCTION
  /\ at_context + String.length retrieval_context <= at_query
  /\ at_query + String.length query <= at_instruction
  /\ String.length out = at_instruction + String.length FALLBACK_INSTRUCTION.
Proof.
  cbv zeta.
  rewrite PromptFacts.build_augmented_prompt_length.
  rewrite PromptFacts.build_augmented_prompt_shape.
  repeat split; try lia.
  - apply substring_middle.
  - apply (substring_at (PromptPlugin.HEAD +++ retrieval_context +++ PromptPlugin.MIDDLE) query
             (PromptPlugin.TAIL +++ FALLBACK_INSTRUCTION)).
    + repeat rewrite append_assoc. reflexivity.
    + repeat rewrite length_append. lia.
  - apply (substring_at (PromptPlugin.HEAD +++ retrieval_context +++ PromptPlugin.MIDDLE
                         +++ query +++ PromptPlugin.TAIL) FALLBACK_INSTRUCTION EmptyString).
    + rewrite append_nil_r. repeat rewrite append_assoc. reflexivity.
    + repeat rewrite length_append. lia.
Qed.

Lemma skipn_length_app {A} (l l' : list A) : skipn (length l) (l ++ l') = l'.
Proof.
  induction l as [| a l IH]; simpl; [reflexivity | exact IH].
Qed.

Lemma issued_after_app {R} (w w' : World R) (evs : list Event) :
  calls w' = calls w ++ evs -> issued_after w w' = evs.
Proof.
  unfold issued_after. intros ->. apply skipn_length_app.
Qed.

(** ** Control flow *)

Lemma try_finally_world {R A} (body : M R A) (fin : M R unit) (w : World R) :
  snd (try_finally body fin w) = snd (fin (snd (body w))).
Proof.
  unfold try_finally.
  destruct (body w) as [[a | e] w1]; simpl;
    destruct (fin w1) as [[u | e'] w2]; reflexivity.
Qed.

Lemma for_each_app {R A} (xs ys : list A) (f : A -> M R unit) (w : World R) :
  for_each (xs ++ ys) f w =
  match for_each xs f w with
  | (Ok _, w1) => for_each ys f w1
  | (Raise e, w1) => (Raise e, w1)
  end.
Proof.
  revert w. induction xs as [| x xs IH]; intro w; simpl.
  - reflexivity.
  - unfold bind. destruct (f x w) as [[u | e] w1]; [apply IH | reflexivity].
Qed.

Section Facts.

Context {R : Type}.
Variable svc : Service R.

(** *** Provisioning *)

(** C8.  When the provisioning cell completes, it has issued exactly two
    remote calls: first the upload of "document.md", which returned the file
    [f], and only then the creation of a vector store whose file ids are the
    singleton list of [f]'s identifier, made on the remote state the upload
    left.  Both are creations and nothing was deleted, so the resources it
    created that exist afterwards are exactly two: that file and that
    vector store. *)
Theorem provision_uploads_then_indexes
    (w w' : World R) (pc : Client) (f : UploadedFile.t) (vs : VectorStore.t) :
  provision svc w = (Ok (pc, f, vs), w') ->
  exists r1 : R,
    svc_upload_file_and_poll svc "document.md" AGENTS (remote w) = (Ok f, r1)
    /\ svc_create_vector_store_and_poll svc [UploadedFile.id f] "vector_store" r1
       = (Ok vs, remote w')
    /\ calls w' = calls w ++
         [ Build_Event (UploadFile "document.md" AGENTS)
             (Returned (Some (UploadedFile.id f)));
           Build_Event (CreateVectorStore [UploadedFile.id f] "vector_store")
             (Returned (Some (VectorStore.id vs))) ]
    /\ owned (issued_after w w')
       = [ FileResource (UploadedFile.id f); VectorStoreResource (VectorStore.id vs) ].
Proof.
  unfold provision, from_connection_string, environ_get, local, bind, ret,
    agents_upload_file_and_poll, agents_create_vector_store_and_poll, invoke, print.
  destruct (lookup "PROJECT_CONNECTION_STRING" (environ w)) as [c |]; [| discriminate].
  destruct (svc_from_connection_string svc c) as [pc0 | e]; [| discriminate].
  destruct (svc_upload_file_and_poll svc "document.md" AGENTS (remote w))
    as [[f0 | e] r1] eqn:Eup; [| discriminate].
  cbn [remote calls stdout environ].
  destruct (svc_create_vector_store_and_poll svc [UploadedFile.id f0] "vector_store" r1)
    as [[v0 | e] r2] eqn:Evs; [| discriminate].
  cbn [remote calls stdout environ].
  intro H. inversion H; subst; clear H.
  exists r1. cbn [remote calls].
  assert (Hcalls : forall l (a b : Event), (l ++ [a]) ++ [b] = l ++ [a; b])
    by (intros; rewrite <- app_assoc; reflexivity).
  repeat split.
  - exact Evs.
  - apply Hcalls.
  - erewrite issued_after_app; [| cbn [calls]; apply Hcalls].
    reflexivity.
Qed.

(** *** Cleanup *)

(** The cleanup from a world [w], case by case on the first deletion that
    raises. *)
Lemma cleanup_thread_raises (g : Globals) (client : Client) (agent : AzureAIAgent.t)
    (thread : AgentThread.t) (w : World R) (e : Exn) (r1 : R) :
  svc_delete_thread svc (AgentThread.id thread) (remote w) = (Raise e, r1) ->
  cleanup svc g client agent thread w
  = (Raise e,
     Build_World r1 (calls w ++ [raised (DeleteThread (AgentThread.id thread)) e])
       (stdout w) (environ w)).
Proof.
  intro H1.
  unfold cleanup, bind, agents_delete_thread, invoke.
  rewrite H1. reflexivity.
Qed.

Lemma cleanup_agent_raises (g : Globals) (client : Client) (agent : AzureAIAgent.t)
    (thread : AgentThread.t) (w : World R) (e : Exn) (r1 r2 : R) :
  svc_delete_thread svc (AgentThread.id thread) (remote w) = (Ok tt, r1) ->
  svc_delete_agent svc (AzureAIAgent.id agent) r1 = (Raise e, r2) ->
  cleanup svc g client agent thread w
  = (Raise e,
     Build_World r2
       (calls w ++ [returned (DeleteThread (AgentThread.id thread));
                    raised (DeleteAgent (AzureAIAgent.id agent)) e])
       (stdout w) (environ w)).
Proof.
  intros H1 H2.
  unfold cleanup, bind, agents_delete_thread, agents_delete_agent, invoke.
  rewrite H1. cbn [remote calls stdout environ]. rewrite H2.
  cbn [calls]. rewrite <- app_assoc. reflexivity.
Qed.

Lemma cleanup_file_raises (g : Globals) (client : Client) (agent : AzureAIAgent.t)
    (thread : AgentThread.t) (w : World R) (e : Exn) (r1 r2 r3 : R) :
  svc_delete_thread svc (AgentThread.id thread) (remote w) = (Ok tt, r1) ->
  svc_delete_agent svc (AzureAIAgent.id agent) r1 = (Ok tt, r2) ->
  svc_delete_file svc (UploadedFile.id (uploaded_file g)) r2 = (Raise e, r3) ->
  cleanup svc g client agent thread w
  = (Raise e,
     Build_World r3
       (calls w ++ [returned (DeleteThread (AgentThread.id thread));
                    returned (DeleteAgent (AzureAIAgent.id agent));
                    raised (DeleteFile (UploadedFile.id (uploaded_file g))) e])
       (stdout w) (environ w)).
Proof.
  intros H1 H2 H3.
  unfold cleanup, bind, agents_delete_thread, agents_delete_agent, agents_delete_file, invoke.
  rewrite H1. cbn [remote calls stdout environ]. rewrite H2.
  cbn [remote calls stdout environ]. rewrite H3.
  cbn [calls]. repeat rewrite <- app_assoc. reflexivity.
Qed.

Lemma cleanup_store_raises (g : Globals) (client : Client) (agent : AzureAIAgent.t)
    (thread : AgentThread.t) (w : World R) (e : Exn) (r1 r2 r3 r4 : R) :
  svc_delete_thread svc (AgentThread.id thread) (remote w) = (Ok tt, r1) ->
  svc_delete_agent svc (AzureAIAgent.id agent) r1 = (Ok tt, r2) ->
  svc_delete_file svc (UploadedFile.id (uploaded_file g)) r2 = (Ok tt, r3) ->
  svc_delete_vector_store svc (VectorStore.id (vector_store g)) r3 = (Raise e, r4) ->
  cleanup svc g client agent thread w
  = (Raise e,
     Build_World r4
       (calls w ++ [returned (DeleteThread (AgentThread.id thread));
                    returned (DeleteAgent (AzureAIAgent.id agent));
                    returned (DeleteFile (UploadedFile.id (uploaded_file g)));
                    raised (DeleteVectorStore (VectorStore.id (vector_store g))) e])
       (stdout w) (environ w)).
Proof.
  intros H1 H2 H3 H4.
  unfold cleanup, bind, agents_delete_thread, agents_delete_agent, agents_delete_file,
    agents_delete_vector_store, invoke.
  rewrite H1. cbn [remote calls stdout environ]. rewrite H2.
  cbn [remote calls stdout environ]. rewrite H3.
  cbn [remote calls stdout environ]. rewrite H4.
  cbn [calls]. repeat rewrite <- app_assoc. reflexivity.
Qed.

Lemma cleanup_all_return (g : Globals) (client : Client) (agent : AzureAIAgent.t)
    (thread : AgentThread.t) (w : World R) (r1 r2 r3 r4 : R) :
  svc_delete_thread svc (AgentThread.id thread) (remote w) = (Ok tt, r1) ->
  svc_delete_agent svc (AzureAIAgent.id agent) r1 = (Ok tt, r2) ->
  svc_delete_file svc (UploadedFile.id (uploaded_file g)) r2 = (Ok tt, r3) ->
  svc_delete_vector_store svc (VectorStore.id (vector_store g)) r3 = (Ok tt, r4) ->
  cleanup svc g client agent thread w
  = (Ok tt,
     Build_World r4
       (calls w ++ map returned (deletion_calls g agent thread))
       (stdout w ++ [nl +++ "Cleaned up agent, thread, file, and vector store."])
       (environ w)).
Proof.
  intros H1 H2 H3 H4.
  unfold cleanup, bind, agents_delete_thread, agents_delete_agent, agents_delete_file,
    agents_delete_vector_store, invoke, print.
  rewrite H1. cbn [remote calls stdout environ]. rewrite H2.
  cbn [remote calls stdout environ]. rewrite H3.
  cbn [remote calls stdout environ]. rewrite H4.
  cbn [remote calls stdout environ]. repeat rewrite <- app_assoc. reflexivity.
Qed.

(** C10.  The deletions of the cleanup are not isolated from one another.
    If delete thread raises, the cleanup stops there: delete agent, delete
    file and delete vector store are never issued, the remote state is the
    one the failed call left, and the exception leaves the cleanup.  Likewise
    if delete agent raises (file and vector store are not attempted) and if
    delete file raises (vector store is not attempted). *)
Theorem cleanup_is_not_fault_isolated (g : Globals) (client : Client)
    (agent : AzureAIAgent.t) (thread : AgentThread.t) (w : World R) :
  (forall e r1,
      svc_delete_thread svc (AgentThread.id thread) (remote w) = (Raise e, r1) ->
      cleanup svc g client agent thread w
      = (Raise e,
         Build_World r1 (calls w ++ [raised (DeleteThread (AgentThread.id thread)) e])
           (stdout w) (environ w)))
  /\ (forall e r1 r2,
      svc_delete_thread svc (AgentThread.id thread) (remote w) = (Ok tt, r1) ->
      svc_delete_agent svc (AzureAIAgent.id agent) r1 = (Raise e, r2) ->
      cleanup svc g client agent thread w
      = (Raise e,
         Build_World r2
           (calls w ++ [returned (DeleteThread (AgentThread.id thread));
                        raised (DeleteAgent (AzureAIAgent.id agent)) e])
           (stdout w) (environ w)))
  /\ (forall e r1 r2 r3,
      svc_delete_thread svc (AgentThread.id thread) (remote w) = (Ok tt, r1) ->
      svc_delete_agent svc (AzureAIAgent.id agent) r1 = (Ok tt, r2) ->
      svc_delete_file svc (UploadedFile.id (uploaded_file g)) r2 = (Raise e, r3) ->
      cleanup svc g client agent thread w
      = (Raise e,
         Build_World r3
           (calls w ++ [returned (DeleteThread (AgentThread.id thread));
                        returned (DeleteAgent (AzureAIAgent.id agent));
                        raised (DeleteFile (UploadedFile.id (uploaded_file g))) e])
           (stdout w) (environ w))).
Proof.
  split; [| split]; intros.
  - now apply cleanup_thread_raises.
  - now apply cleanup_agent_raises with (r1 := r1).
  - now apply cleanup_file_raises with (r1 := r1) (r2 := r2).
Qed.

(** The calls of a cleanup, whatever the service does: a non-empty initial
    segment of the four deletions, all returned but possibly the last, and
    complete unless the last one raised. *)
Lemma cleanup_calls (g : Globals) (client : Client) (agent : AzureAIAgent.t)
    (thread : AgentThread.t) (w : World R) :
  exists (done : list Call) (last : Event) (rest : list Call),
    calls (snd (cleanup svc g client agent thread w))
    = calls w ++ map returned done ++ [last]
    /\ deletion_calls g agent thread = done ++ ev_call last :: rest
    /\ ((ev_outcome last = Returned None /\ rest = [])
        \/ exists e, ev_outcome last = Raised e).
Proof.
  set (tid := AgentThread.id thread). set (aid := AzureAIAgent.id agent).
  set (fid := UploadedFile.id (uploaded_file g)).
  set (vid := VectorStore.id (vector_store g)).
  destruct (svc_delete_thread svc tid (remote w)) as [[[] | e1] r1] eqn:E1.
  2:{ rewrite (cleanup_thread_raises g client agent thread w e1 r1 E1).
      exists [], (raised (DeleteThread tid) e1), [DeleteAgent aid; DeleteFile fid; DeleteVectorStore vid].
      repeat split. right. now exists e1. }
  destruct (svc_delete_agent svc aid r1) as [[[] | e2] r2] eqn:E2.
  2:{ rewrite (cleanup_agent_raises g client agent thread w e2 r1 r2 E1 E2).
      exists [DeleteThread tid], (raised (DeleteAgent aid) e2), [DeleteFile fid; DeleteVectorStore vid].
      repeat split. right. now exists e2. }
  destruct (svc_delete_file svc fid r2) as [[[] | e3] r3] eqn:E3.
  2:{ rewrite (cleanup_file_raises g client agent thread w e3 r1 r2 r3 E1 E2 E3).
      exists [DeleteThread tid; DeleteAgent aid], (raised (DeleteFile fid) e3), [DeleteVectorStore vid].
      repeat split. right. now exists e3. }
  destruct (svc_delete_vector_store svc vid r3) as [[[] | e4] r4] eqn:E4.
  2:{ rewrite (cleanup_store_raises g client agent thread w e4 r1 r2 r3 r4 E1 E2 E3 E4).
      exists [DeleteThread tid; DeleteAgent aid; DeleteFile fid], (raised (DeleteVectorStore vid) e4), [].
      repeat split. right. now exists e4. }
  rewrite (cleanup_all_return g client agent thread w r1 r2 r3 r4 E1 E2 E3 E4).
  exists [DeleteThread tid; DeleteAgent aid; DeleteFile fid], (returned (DeleteVectorStore vid)), [].
  repeat split. left. split; reflexivity.
Qed.

(** C1 (as the code has it).  On every exit of the query loop, normal or by
    an exception, the cleanup runs next, on the world the loop left.  Its
    calls are an initial segment of delete thread, delete agent, delete file,
    delete vector store, in that order and never empty (delete thread is
    always issued); every call before the last one returned; and the segment
    is the whole list of four unless the last call issued raised. *)
Theorem teardown_on_every_exit (g : Globals) (client : Client)
    (agent : AzureAIAgent.t) (thread : AgentThread.t) (user_inputs : list string)
    (w : World R) :
  exists (done : list Call) (last : Event) (rest : list Call),
    calls (snd (run_queries svc g client agent thread user_inputs w))
    = calls (snd (query_loop svc (project_client g) agent (AgentThread.id thread)
                    user_inputs w))
      ++ map returned done ++ [last]
    /\ deletion_calls g agent thread = done ++ ev_call last :: rest
    /\ ((ev_outcome last = Returned None /\ rest = [])
        \/ exists e, ev_outcome last = Raised e).
Proof.
  unfold run_queries. rewrite try_finally_world.
  apply cleanup_calls.
Qed.

(** *** Query Driver *)

(** Printing the text blocks touches nothing but the standard output. *)
Lemma print_text_blocks_frame (blocks : list ContentBlock) (w : World R) :
  remote (snd (print_text_blocks blocks w)) = remote w
  /\ calls (snd (print_text_blocks blocks w)) = calls w
  /\ environ (snd (print_text_blocks blocks w)) = environ w.
Proof.
  revert w. induction blocks as [| b blocks IH]; intro w.
  - repeat split.
  - unfold print_text_blocks in *. cbn [for_each]. unfold bind at 1.
    destruct (is_text (type b)).
    + destruct (text b) as [t |]; cbn.
      * apply (IH (Build_World (remote w) (calls w)
                     (stdout w ++ ["Text: " +++ str (value t)]) (environ w))).
      * repeat split.
    + cbn. apply IH.
Qed.

(** When every text-type block carries its payload, one line is printed per
    text-type block, in the order of the blocks, and nothing raises. *)
Lemma print_text_blocks_ok (blocks : list ContentBlock) (w : World R) :
  forallb has_payload blocks = true ->
  print_text_blocks blocks w
  = (Ok tt,
     Build_World (remote w) (calls w)
       (stdout w ++ map answer_line (filter is_text_block blocks)) (environ w)).
Proof.
  revert w. induction blocks as [| b blocks IH]; intros w H.
  - cbn. rewrite app_nil_r. destruct w; reflexivity.
  - cbn [forallb] in H. apply andb_true_iff in H. destruct H as [Hb H].
    unfold print_text_blocks in *. cbn [for_each filter]. unfold bind at 1.
    unfold has_payload, is_text_block in *.
    destruct (is_text (type b)) eqn:Et.
    + destruct (text b) as [t |] eqn:Ex; [| discriminate].
      cbn [getitem]. unfold bind at 1, ret, print.
      rewrite IH by exact H. cbn [remote calls stdout environ map].
      unfold answer_line at 2. rewrite Ex. rewrite <- app_assoc. reflexivity.
    + unfold ret. apply IH. exact H.
Qed.

(** [process_query] once its three remote calls have returned: what is left
    is the local reading of the fetched list. *)
Lemma process_query_fetched (pc : Client) (agent : AzureAIAgent.t) (thread_id : Id)
    (user_query : string) (w : World R)
    (m : Message) (run : ThreadRun.t) (msgs : MessageList) (r1 r2 r3 : R) :
  svc_create_message svc thread_id USER user_query (remote w) = (Ok m, r1) ->
  svc_create_and_process_run svc thread_id (AzureAIAgent.id agent) r1 = (Ok run, r2) ->
  svc_list_messages svc thread_id r2 = (Ok msgs, r3) ->
  process_query svc pc agent thread_id user_query w
  = (match get (data msgs) [] with
     | first_msg :: _ => print_text_blocks (get (content first_msg) [])
     | [] => ret tt
     end ;;; print SEPARATOR)
      (Build_World r3
         (calls w ++ map returned (query_calls thread_id (AzureAIAgent.id agent) user_query))
         (stdout w ++ [nl +++ "Processing query: " +++ user_query; "Responses:"])
         (environ w)).
Proof.
  intros H1 H2 H3.
  unfold process_query, agents_create_message, agents_create_and_process_run,
    agents_list_messages, invoke.
  unfold bind at 1. unfold print at 1. cbn [remote calls stdout environ].
  unfold bind at 1. cbn [remote calls stdout environ]. rewrite H1.
  unfold bind at 1. cbn [remote calls stdout environ]. rewrite H2.
  unfold bind at 1. cbn [remote calls stdout environ]. rewrite H3.
  unfold bind at 1. unfold print at 1. cbn [remote calls stdout environ].
  repeat rewrite <- app_assoc. reflexivity.
Qed.

Lemma process_query_create_message_raises (pc : Client) (agent : AzureAIAgent.t)
    (thread_id : Id) (user_query : string) (w : World R) (e : Exn) (r1 : R) :
  svc_create_message svc thread_id USER user_query (remote w) = (Raise e, r1) ->
  process_query svc pc agent thread_id user_query w
  = (Raise e,
     Build_World r1
       (calls w ++ [raised (CreateMessage thread_id USER user_query) e])
       (stdout w ++ [nl +++ "Processing query: " +++ user_query])
       (environ w)).
Proof.
  intros H1.
  unfold process_query, agents_create_message, invoke.
  unfold bind at 1. unfold print at 1. cbn [remote calls stdout environ].
  unfold bind at 1. cbn [remote calls stdout environ]. rewrite H1.
  reflexivity.
Qed.

Lemma process_query_run_raises (pc : Client) (agent : AzureAIAgent.t)
    (thread_id : Id) (user_query : string) (w : World R)
    (m : Message) (e : Exn) (r1 r2 : R) :
  svc_create_message svc thread_id USER user_query (remote w) = (Ok m, r1) ->
  svc_create_and_process_run svc thread_id (AzureAIAgent.id agent) r1 = (Raise e, r2) ->
  process_query svc pc agent thread_id user_query w
  = (Raise e,
     Build_World r2
       (calls w ++ [returned (CreateMessage thread_id USER user_query);
                    raised (CreateAndProcessRun thread_id (AzureAIAgent.id agent)) e])
       (stdout w ++ [nl +++ "Processing query: " +++ user_query])
       (environ w)).
Proof.
  intros H1 H2.
  unfold process_query, agents_create_message, agents_create_and_process_run, invoke.
  unfold bind at 1. unfold print at 1. cbn [remote calls stdout environ].
  unfold bind at 1. cbn [remote calls stdout environ]. rewrite H1.
  unfold bind at 1. cbn [remote calls stdout environ]. rewrite H2.
  rewrite <- app_assoc. reflexivity.
Qed.

Lemma process_query_list_raises (pc : Client) (agent : AzureAIAgent.t)
    (thread_id : Id) (user_query : string) (w : World R)
    (m : Message) (run : ThreadRun.t) (e : Exn) (r1 r2 r3 : R) :
  svc_create_message svc thread_id USER user_query (remote w) = (Ok m, r1) ->
  svc_create_and_process_run svc thread_id (AzureAIAgent.id agent) r1 = (Ok run, r2) ->
  svc_list_messages svc thread_id r2 = (Raise e, r3) ->
  process_query svc pc agent thread_id user_query w
  = (Raise e,
     Build_World r3
       (calls w ++ [returned (CreateMessage thread_id USER user_query);
                    returned (CreateAndProcessRun thread_id (AzureAIAgent.id agent));
                    raised (ListMessages thread_id) e])
       (stdout w ++ [nl +++ "Processing query: " +++ user_query])
       (environ w)).
Proof.
  intros H1 H2 H3.
  unfold process_query, agents_create_message, agents_create_and_process_run,
    agents_list_messages, invoke.
  unfold bind at 1. unfold print at 1. cbn [remote calls stdout environ].
  unfold bind at 1. cbn [remote calls stdout environ]. rewrite H1.
  unfold bind at 1. cbn [remote calls stdout environ]. rewrite H2.
  unfold bind at 1. cbn [remote calls stdout environ]. rewrite H3.
  repeat rewrite <- app_assoc. reflexivity.
Qed.

(** The local reading of the fetched list issues no call and leaves the
    remote state alone. *)
Lemma reading_frame (msgs : MessageList) (w : World R) :
  let w' := snd ((match get (data msgs) [] with
                  | first_msg :: _ => print_text_blocks (get (content first_msg) [])
                  | [] => ret tt
                  end ;;; print SEPARATOR) w) in
  remote w' = remote w /\ calls w' = calls w /\ environ w' = environ w.
Proof.
  cbv zeta. unfold bind.
  destruct (get (data msgs) []) as [| first_msg older].
  - cbn. repeat split.
  - pose proof (print_text_blocks_frame (get (content first_msg) []) w) as F.
    destruct (print_text_blocks (get (content first_msg) []) w) as [[u | e] w1];
      cbn in *; exact F.
Qed.

(** The calls of one query, whatever the service does: create message
    first, carrying the raw query; then, each only if the previous call
    returned, the run and the listing. *)
Lemma process_query_calls (pc : Client) (agent : AzureAIAgent.t) (thread_id : Id)
    (user_query : string) (w : World R) :
  exists (o : Outcome) (more : list Event),
    calls (snd (process_query svc pc agent thread_id user_query w))
    = calls w ++ Build_Event (CreateMessage thread_id USER user_query) o :: more
    /\ appends more = []
    /\ (forall u, fst (process_query svc pc agent thread_id user_query w) = Ok u ->
        Build_Event (CreateMessage thread_id USER user_query) o :: more
        = map returned (query_calls thread_id (AzureAIAgent.id agent) user_query)).
Proof.
  destruct (svc_create_message svc thread_id USER user_query (remote w))
    as [[m | e1] r1] eqn:E1.
  2:{ rewrite (process_query_create_message_raises pc agent _ _ w e1 r1 E1).
      exists (Raised e1), []. cbn. repeat split. discriminate. }
  destruct (svc_create_and_process_run svc thread_id (AzureAIAgent.id agent) r1)
    as [[run | e2] r2] eqn:E2.
  2:{ rewrite (process_query_run_raises pc agent _ _ w m e2 r1 r2 E1 E2).
      exists (Returned None), [raised (CreateAndProcessRun thread_id (AzureAIAgent.id agent)) e2].
      cbn. repeat split. discriminate. }
  destruct (svc_list_messages svc thread_id r2) as [[msgs | e3] r3] eqn:E3.
  2:{ rewrite (process_query_list_raises pc agent _ _ w m run e3 r1 r2 r3 E1 E2 E3).
      exists (Returned None),
        [returned (CreateAndProcessRun thread_id (AzureAIAgent.id agent));
         raised (ListMessages thread_id) e3].
      cbn. repeat split. discriminate. }
  rewrite (process_query_fetched pc agent _ _ w m run msgs r1 r2 r3 E1 E2 E3).
  exists (Returned None),
    [returned (CreateAndProcessRun thread_id (AzureAIAgent.id agent));
     returned (ListMessages thread_id)].
  split; [| split; [reflexivity | intros; reflexivity]].
  match goal with |- calls (snd (_ ?w0)) = _ => pose proof (reading_frame msgs w0) as F end.
  cbv zeta in F. destruct F as [_ [F _]]. rewrite F. reflexivity.
Qed.

Lemma no_text_block_has_payload (blocks : list ContentBlock) :
  filter is_text_block blocks = [] -> forallb has_payload blocks = true.
Proof.
  induction blocks as [| b blocks IH]; cbn; intro H; [reflexivity |].
  unfold has_payload. destruct (is_text_block b); [discriminate |].
  cbn. apply IH. exact H.
Qed.

(** The successful path of a query whose first fetched message has
    well-formed text blocks. *)
Lemma process_query_text_lines (pc : Client) (agent : AzureAIAgent.t)
    (thread_id : Id) (user_query : string) (w : World R)
    (m first_msg : Message) (older : list Message) (run : ThreadRun.t)
    (msgs : MessageList) (r1 r2 r3 : R) :
  svc_create_message svc thread_id USER user_query (remote w) = (Ok m, r1) ->
  svc_create_and_process_run svc thread_id (AzureAIAgent.id agent) r1 = (Ok run, r2) ->
  svc_list_messages svc thread_id r2 = (Ok msgs, r3) ->
  data msgs = Some (first_msg :: older) ->
  forallb has_payload (get (content first_msg) []) = true ->
  process_query svc pc agent thread_id user_query w
  = (Ok tt,
     Build_World r3
       (calls w ++ map returned (query_calls thread_id (AzureAIAgent.id agent) user_query))
       (stdout w
        ++ [nl +++ "Processing query: " +++ user_query; "Responses:"]
        ++ map answer_line (filter is_text_block (get (content first_msg) []))
        ++ [SEPARATOR])
       (environ w)).
Proof.
  intros H1 H2 H3 Hd Hp.
  rewrite (process_query_fetched pc agent _ _ w m run msgs r1 r2 r3 H1 H2 H3).
  rewrite Hd. cbn [get]. unfold bind.
  rewrite print_text_blocks_ok by exact Hp.
  unfold print. cbn [remote calls stdout environ].
  repeat rewrite <- app_assoc. reflexivity.
Qed.

(** C2 (as the code has it).  Once the three remote calls of a query have
    returned, the driver takes the first message of the fetched list (the
    most recent one, in the order the service lists them) and prints one
    answer line for every text-type content block of that message, in the
    order of the blocks, between the "Responses:" header and the separator;
    blocks of other types and the older messages print nothing.  (Each
    text-type block is taken to carry its "text" key.) *)
Theorem process_query_prints_every_text_block (pc : Client) (agent : AzureAIAgent.t)
    (thread_id : Id) (user_query : string) (w : World R)
    (m first_msg : Message) (older : list Message) (run : ThreadRun.t)
    (msgs : MessageList) (r1 r2 r3 : R) :
  svc_create_message svc thread_id USER user_query (remote w) = (Ok m, r1) ->
  svc_create_and_process_run svc thread_id (AzureAIAgent.id agent) r1 = (Ok run, r2) ->
  svc_list_messages svc thread_id r2 = (Ok msgs, r3) ->
  data msgs = Some (first_msg :: older) ->
  forallb has_payload (get (content first_msg) []) = true ->
  process_query svc pc agent thread_id user_query w
  = (Ok tt,
     Build_World r3
       (calls w ++ map returned (query_calls thread_id (AzureAIAgent.id agent) user_query))
       (stdout w
        ++ [nl +++ "Processing query: " +++ user_query; "Responses:"]
        ++ map answer_line (filter is_text_block (get (content first_msg) []))
        ++ [SEPARATOR])
       (environ w)).
Proof.
  intros H1 H2 H3 Hd Hp.
  exact (process_query_text_lines pc agent thread_id user_query w
           m first_msg older run msgs r1 r2 r3 H1 H2 H3 Hd Hp).
Qed.

(** C7.  When the fetched message list is empty, or its first (most recent)
    message has no text-type content block, [process_query] returns without
    raising and prints no answer line: only the query header, "Responses:"
    and the separator.  The loop then goes on with the remaining queries from
    the world this query left. *)
Theorem process_query_silent_without_text (pc : Client) (agent : AzureAIAgent.t)
    (thread_id : Id) (user_query : string) (remaining : list string) (w : World R)
    (m : Message) (run : ThreadRun.t) (msgs : MessageList) (r1 r2 r3 : R) :
  svc_create_message svc thread_id USER user_query (remote w) = (Ok m, r1) ->
  svc_create_and_process_run svc thread_id (AzureAIAgent.id agent) r1 = (Ok run, r2) ->
  svc_list_messages svc thread_id r2 = (Ok msgs, r3) ->
  (get (data msgs) [] = []
   \/ exists first_msg older,
        get (data msgs) [] = first_msg :: older
        /\ filter is_text_block (get (content first_msg) []) = []) ->
  let w' :=
    Build_World r3
      (calls w ++ map returned (query_calls thread_id (AzureAIAgent.id agent) user_query))
      (stdout w ++ [nl +++ "Processing query: " +++ user_query; "Responses:"; SEPARATOR])
      (environ w) in
  process_query svc pc agent thread_id user_query w = (Ok tt, w')
  /\ answers (skipn (length (stdout w)) (stdout w')) = []
  /\ query_loop svc pc agent thread_id (user_query :: remaining) w
     = query_loop svc pc agent thread_id remaining w'.
Proof.
  intros H1 H2 H3 Hempty. cbv zeta.
  assert (Hq : process_query svc pc agent thread_id user_query w
               = (Ok tt,
                  Build_World r3
                    (calls w ++ map returned
                       (query_calls thread_id (AzureAIAgent.id agent) user_query))
                    (stdout w ++ [nl +++ "Processing query: " +++ user_query;
                                  "Responses:"; SEPARATOR])
                    (environ w))).
  { rewrite (process_query_fetched pc agent _ _ w m run msgs r1 r2 r3 H1 H2 H3).
    destruct Hempty as [He | [first_msg [older [He Hnone]]]]; rewrite He; unfold bind.
    - unfold ret, print. cbn [remote calls stdout environ].
      rewrite <- app_assoc. reflexivity.
    - rewrite print_text_blocks_ok by (apply no_text_block_has_payload; exact Hnone).
      rewrite Hnone. unfold print. cbn [remote calls stdout environ map].
      rewrite app_nil_r, <- app_assoc. reflexivity. }
  split; [exact Hq | split].
  - cbn [stdout]. rewrite skipn_length_app. reflexivity.
  - unfold query_loop. cbn [for_each]. unfold bind at 1. rewrite Hq. reflexivity.
Qed.

(** C9.  The driver looks at neither the status of the run nor the role of
    the message it reads.  If the run returns, in whatever terminal state,
    and the first (most recent) message of the fetched list is still the
    message the driver has just appended, holding the query as its one text
    block, then the driver prints the query itself as the answer. *)
Theorem process_query_echoes_own_message (pc : Client) (agent : AzureAIAgent.t)
    (thread_id : Id) (user_query : string) (w : World R)
    (m : Message) (older : list Message) (run : ThreadRun.t)
    (msgs : MessageList) (r1 r2 r3 : R) :
  svc_create_message svc thread_id USER user_query (remote w) = (Ok m, r1) ->
  content m = Some [text_block user_query] ->
  svc_create_and_process_run svc thread_id (AzureAIAgent.id agent) r1 = (Ok run, r2) ->
  svc_list_messages svc thread_id r2 = (Ok msgs, r3) ->
  data msgs = Some (m :: older) ->
  process_query svc pc agent thread_id user_query w
  = (Ok tt,
     Build_World r3
       (calls w ++ map returned (query_calls thread_id (AzureAIAgent.id agent) user_query))
       (stdout w
        ++ [nl +++ "Processing query: " +++ user_query; "Responses:";
            "Text: " +++ user_query; SEPARATOR])
       (environ w)).
Proof.
  intros H1 Hc H2 H3 Hd.
  rewrite (process_query_text_lines pc agent thread_id user_query w
             m m older run msgs r1 r2 r3 H1 H2 H3 Hd).
  - rewrite Hc. reflexivity.
  - rewrite Hc. reflexivity.
Qed.

(** C6.  Whatever the service does, the first call of [process_query] is
    the one append-message call of the query: on the given thread, with the
    user role, and with the raw query string as its content; no other append
    follows.  The plugins registered on the agent play no part: replacing the
    agent's kernel by any other leaves [process_query] unchanged, and adding
    any plugin to the agent leaves the query loop and its cleanup unchanged.  And the
    content sent is not an augmented prompt: [build_augmented_prompt] never
    returns the query it was given. *)
Theorem process_query_appends_raw_query (pc : Client) (agent : AzureAIAgent.t)
    (thread_id : Id) (user_query : string) (w : World R) :
  (exists (o : Outcome) (more : list Event),
      issued_after w (snd (process_query svc pc agent thread_id user_query w))
      = Build_Event (CreateMessage thread_id USER user_query) o :: more
      /\ appends (issued_after w (snd (process_query svc pc agent thread_id user_query w)))
         = [(thread_id, USER, user_query)])
  /\ (forall kernel' : list (string * KernelFunction),
        process_query svc pc
          (AzureAIAgent.Build (AzureAIAgent.client agent) (AzureAIAgent.definition agent)
             kernel')
          thread_id user_query w
        = process_query svc pc agent thread_id user_query w)
  /\ (forall (plugin : KernelFunction) (plugin_name : string) (g : Globals)
             (client : Client) (thread : AgentThread.t) (user_inputs : list string),
        run_queries svc g client (AzureAIAgent.add_plugin agent plugin plugin_name)
          thread user_inputs w
        = run_queries svc g client agent thread user_inputs w)
  /\ (forall retrieval_context : string,
        PromptPlugin.build_augmented_prompt user_query retrieval_context <> user_query).
Proof.
  split; [| split; [| split]].
  - destruct (process_query_calls pc agent thread_id user_query w) as [o [more [Hc [Ha _]]]].
    exists o, more.
    rewrite (issued_after_app _ _ _ Hc).
    split; [reflexivity |].
    change (appends (Build_Event (CreateMessage thread_id USER user_query) o :: more))
      with ((thread_id, USER, user_query) :: appends more).
    rewrite Ha. reflexivity.
  - intro kernel'. reflexivity.
  - intros. reflexivity.
  - intro retrieval_context. apply PromptFacts.build_augmented_prompt_not_query.
Qed.

(** *** The query loop *)

Lemma appends_app (a b : list Event) : appends (a ++ b) = appends a ++ appends b.
Proof. unfold appends. apply flat_map_app. Qed.

Lemma runs_app (a b : list Event) : runs (a ++ b) = runs a ++ runs b.
Proof. unfold runs. apply flat_map_app. Qed.

Lemma appends_of_queries (thread_id assistant_id : Id) (user_inputs : list string) :
  appends (map returned (flat_map (query_calls thread_id assistant_id) user_inputs))
  = map (fun q => (thread_id, USER, q)) user_inputs.
Proof.
  induction user_inputs as [| q qs IH]; [reflexivity |].
  cbn [flat_map]. rewrite map_app, appends_app, IH. reflexivity.
Qed.

Lemma runs_of_queries (thread_id assistant_id : Id) (user_inputs : list string) :
  runs (map returned (flat_map (query_calls thread_id assistant_id) user_inputs))
  = repeat (thread_id, assistant_id) (length user_inputs).
Proof.
  induction user_inputs as [| q qs IH]; [reflexivity |].
  cbn [flat_map]. rewrite map_app, runs_app, IH. reflexivity.
Qed.

(** A loop that completes has issued, query after query in the order of the
    list, the three calls of each query, all of which returned. *)
Lemma query_loop_ok (pc : Client) (agent : AzureAIAgent.t) (thread_id : Id)
    (user_inputs : list string) (w w' : World R) :
  query_loop svc pc agent thread_id user_inputs w = (Ok tt, w') ->
  calls w' = calls w
             ++ map returned (flat_map (query_calls thread_id (AzureAIAgent.id agent))
                                user_inputs).
Proof.
  revert w. induction user_inputs as [| q qs IH]; intros w H.
  - cbn in H. inversion H; subst. cbn. now rewrite app_nil_r.
  - unfold query_loop in H. cbn [for_each] in H. unfold bind at 1 in H.
    destruct (process_query_calls pc agent thread_id q w) as [o [more [Hc [_ Hok]]]].
    destruct (process_query svc pc agent thread_id q w) as [[u | e] w1] eqn:E;
      [| discriminate].
    cbn [fst snd] in *.
    specialize (Hok u eq_refl). rewrite Hok in Hc.
    apply IH in H. rewrite H, Hc.
    cbn [flat_map]. rewrite map_app, <- app_assoc. reflexivity.
Qed.

(** C3 (as the code has it).  When the loop over N queries completes, that
    is when no call of it raises, the calls it issued are exactly, query after
    query in the order supplied, create message, run, list messages: N
    append-message calls, the k-th carrying the k-th query with the user
    role, and N run calls, every one of them on the one thread id given to
    the loop. *)
Theorem query_loop_calls_in_order (pc : Client) (agent : AzureAIAgent.t)
    (thread_id : Id) (user_inputs : list string) (w w' : World R) :
  query_loop svc pc agent thread_id user_inputs w = (Ok tt, w') ->
  issued_after w w'
  = map returned (flat_map (query_calls thread_id (AzureAIAgent.id agent)) user_inputs)
  /\ appends (issued_after w w') = map (fun q => (thread_id, USER, q)) user_inputs
  /\ runs (issued_after w w')
     = repeat (thread_id, AzureAIAgent.id agent) (length user_inputs)
  /\ length (appends (issued_after w w')) = length user_inputs
  /\ length (runs (issued_after w w')) = length user_inputs.
Proof.
  intro H. apply query_loop_ok in H.
  rewrite (issued_after_app _ _ _ H).
  rewrite appends_of_queries, runs_of_queries, length_map, repeat_length.
  repeat split.
Qed.

(** The loop stops at the first query whose run raises. *)
Lemma query_loop_run_raises (pc : Client) (agent : AzureAIAgent.t) (thread_id : Id)
    (before : list string) (user_query : string) (after : list string)
    (w w1 : World R) (m : Message) (e : Exn) (r2 r3 : R) :
  query_loop svc pc agent thread_id before w = (Ok tt, w1) ->
  svc_create_message svc thread_id USER user_query (remote w1) = (Ok m, r2) ->
  svc_create_and_process_run svc thread_id (AzureAIAgent.id agent) r2 = (Raise e, r3) ->
  query_loop svc pc agent thread_id (before ++ user_query :: after) w
  = (Raise e,
     Build_World r3
       (calls w
        ++ map returned (flat_map (query_calls thread_id (AzureAIAgent.id agent)) before)
        ++ [returned (CreateMessage thread_id USER user_query);
            raised (CreateAndProcessRun thread_id (AzureAIAgent.id agent)) e])
       (stdout w1 ++ [nl +++ "Processing query: " +++ user_query])
       (environ w1)).
Proof.
  intros Hloop H1 H2.
  pose proof (query_loop_ok _ _ _ _ _ _ Hloop) as Hcalls.
  unfold query_loop in *. rewrite for_each_app, Hloop.
  cbn [for_each]. unfold bind at 1.
  rewrite (process_query_run_raises pc agent thread_id user_query w1 m e r2 r3 H1 H2).
  rewrite Hcalls, <- app_assoc. reflexivity.
Qed.

(** The calls and the result of a cleanup, whatever the service does: as
    [cleanup_calls], and the cleanup returns when its last call returned, and
    raises the exception of its last call otherwise. *)
Lemma cleanup_outcome (g : Globals) (client : Client) (agent : AzureAIAgent.t)
    (thread : AgentThread.t) (w : World R) :
  exists (done : list Call) (last : Event) (rest : list Call),
    calls (snd (cleanup svc g client agent thread w))
    = calls w ++ map returned done ++ [last]
    /\ deletion_calls g agent thread = done ++ ev_call last :: rest
    /\ ((ev_outcome last = Returned None /\ rest = []
         /\ fst (cleanup svc g client agent thread w) = Ok tt)
        \/ exists e, ev_outcome last = Raised e
                     /\ fst (cleanup svc g client agent thread w) = Raise e).
Proof.
  set (tid := AgentThread.id thread). set (aid := AzureAIAgent.id agent).
  set (fid := UploadedFile.id (uploaded_file g)).
  set (vid := VectorStore.id (vector_store g)).
  destruct (svc_delete_thread svc tid (remote w)) as [[[] | e1] r1] eqn:E1.
  2:{ rewrite (cleanup_thread_raises g client agent thread w e1 r1 E1).
      exists [], (raised (DeleteThread tid) e1),
        [DeleteAgent aid; DeleteFile fid; DeleteVectorStore vid].
      split; [reflexivity | split; [reflexivity |]]. right. exists e1. split; reflexivity. }
  destruct (svc_delete_agent svc aid r1) as [[[] | e2] r2] eqn:E2.
  2:{ rewrite (cleanup_agent_raises g client agent thread w e2 r1 r2 E1 E2).
      exists [DeleteThread tid], (raised (DeleteAgent aid) e2),
        [DeleteFile fid; DeleteVectorStore vid].
      split; [reflexivity | split; [reflexivity |]]. right. exists e2. split; reflexivity. }
  destruct (svc_delete_file svc fid r2) as [[[] | e3] r3] eqn:E3.
  2:{ rewrite (cleanup_file_raises g client agent thread w e3 r1 r2 r3 E1 E2 E3).
      exists [DeleteThread tid; DeleteAgent aid], (raised (DeleteFile fid) e3),
        [DeleteVectorStore vid].
      split; [reflexivity | split; [reflexivity |]]. right. exists e3. split; reflexivity. }
  destruct (svc_delete_vector_store svc vid r3) as [[[] | e4] r4] eqn:E4.
  2:{ rewrite (cleanup_store_raises g client agent thread w e4 r1 r2 r3 r4 E1 E2 E3 E4).
      exists [DeleteThread tid; DeleteAgent aid; DeleteFile fid],
        (raised (DeleteVectorStore vid) e4), [].
      split; [reflexivity | split; [reflexivity |]]. right. exists e4. split; reflexivity. }
  rewrite (cleanup_all_return g client agent thread w r1 r2 r3 r4 E1 E2 E3 E4).
  exists [DeleteThread tid; DeleteAgent aid; DeleteFile fid],
    (returned (DeleteVectorStore vid)), [].
  split; [reflexivity | split; [reflexivity |]]. left. repeat split.
Qed.

(** C4 (as the code has it).  If the loop reaches query k and the run for
    it raises, then no call is issued for the queries after k, and the
    cleanup is entered right after the failed run: delete thread is issued,
    and the deletions follow in the order thread, agent, file, vector store,
    each once and each only if the one before it returned; all four are
    issued, once each, unless one of them raises.  The exception that leaves
    the [try] statement is the run's own when the four deletions returned;
    when a deletion raised, it is that deletion's exception, with the run's as
    its context. *)
Theorem failed_run_aborts_batch_then_cleanup (g : Globals) (client : Client)
    (agent : AzureAIAgent.t) (thread : AgentThread.t)
    (before : list string) (user_query : string) (after : list string)
    (w w1 : World R) (m : Message) (e : Exn) (r2 r3 : R) :
  query_loop svc (project_client g) agent (AgentThread.id thread) before w = (Ok tt, w1) ->
  svc_create_message svc (AgentThread.id thread) USER user_query (remote w1) = (Ok m, r2) ->
  svc_create_and_process_run svc (AgentThread.id thread) (AzureAIAgent.id agent) r2
  = (Raise e, r3) ->
  exists (done : list Call) (last : Event) (rest : list Call),
    issued_after w
      (snd (run_queries svc g client agent thread (before ++ user_query :: after) w))
    = map returned
        (flat_map (query_calls (AgentThread.id thread) (AzureAIAgent.id agent)) before)
      ++ [returned (CreateMessage (AgentThread.id thread) USER user_query);
          raised (CreateAndProcessRun (AgentThread.id thread) (AzureAIAgent.id agent)) e]
      ++ map returned done ++ [last]
    /\ deletion_calls g agent thread = done ++ ev_call last :: rest
    /\ ((ev_outcome last = Returned None /\ rest = []
         /\ fst (run_queries svc g client agent thread
                   (before ++ user_query :: after) w) = Raise e)
        \/ exists e', ev_outcome last = Raised e'
                      /\ fst (run_queries svc g client agent thread
                                (before ++ user_query :: after) w)
                         = Raise (Chained e' e)).
Proof.
  intros Hloop H1 H2.
  pose proof (query_loop_run_raises (project_client g) agent (AgentThread.id thread)
                before user_query after w w1 m e r2 r3 Hloop H1 H2) as Hq.
  set (w2 := Build_World r3
               (calls w
                ++ map returned
                     (flat_map (query_calls (AgentThread.id thread) (AzureAIAgent.id agent))
                        before)
                ++ [returned (CreateMessage (AgentThread.id thread) USER user_query);
                    raised (CreateAndProcessRun (AgentThread.id thread)
                              (AzureAIAgent.id agent)) e])
               (stdout w1 ++ [nl +++ "Processing query: " +++ user_query])
               (environ w1)) in *.
  destruct (cleanup_outcome g client agent thread w2) as [done [last [rest [Hc [Hd Ho]]]]].
  exists done, last, rest.
  split; [| split; [exact Hd |]].
  - apply issued_after_app.
    unfold run_queries. rewrite try_finally_world, Hq. cbn [snd].
    rewrite Hc. unfold w2. cbn [calls].
    repeat rewrite <- app_assoc. reflexivity.
  - unfold run_queries, try_finally. rewrite Hq.
    destruct (cleanup svc g client agent thread w2) as [[u | e'] w3]; cbn [fst] in *.
    + destruct Ho as [[Hl [Hr _]] | [e' [_ He']]]; [| discriminate].
      left. repeat split; assumption.
    + destruct Ho as [[_ [_ Hk]] | [e'' [Hl He']]]; [discriminate |].
      right. exists e''. split; [exact Hl |]. congruence.
Qed.

Lemma calls_of_returned (cs : list Call) : map ev_call (map returned cs) = cs.
Proof.
  induction cs as [| c cs IH]; cbn; [reflexivity | now rewrite IH].
Qed.

(** Whatever the service does, the calls of one query are an initial segment
    of create message, run, list messages. *)
Lemma process_query_calls_prefix (pc : Client) (agent : AzureAIAgent.t) (thread_id : Id)
    (user_query : string) (w : World R) :
  exists (evs : list Event) (rest : list Call),
    calls (snd (process_query svc pc agent thread_id user_query w)) = calls w ++ evs
    /\ query_calls thread_id (AzureAIAgent.id agent) user_query = map ev_call evs ++ rest.
Proof.
  destruct (svc_create_message svc thread_id USER user_query (remote w))
    as [[m | e1] r1] eqn:E1.
  2:{ rewrite (process_query_create_message_raises pc agent _ _ w e1 r1 E1).
      now eexists [_], _. }
  destruct (svc_create_and_process_run svc thread_id (AzureAIAgent.id agent) r1)
    as [[run | e2] r2] eqn:E2.
  2:{ rewrite (process_query_run_raises pc agent _ _ w m e2 r1 r2 E1 E2).
      now eexists [_; _], _. }
  destruct (svc_list_messages svc thread_id r2) as [[msgs | e3] r3] eqn:E3.
  2:{ rewrite (process_query_list_raises pc agent _ _ w m run e3 r1 r2 r3 E1 E2 E3).
      now eexists [_; _; _], []. }
  rewrite (process_query_fetched pc agent _ _ w m run msgs r1 r2 r3 E1 E2 E3).
  exists (map returned (query_calls thread_id (AzureAIAgent.id agent) user_query)), [].
  split; [| reflexivity].
  match goal with |- calls (snd (_ ?w0)) = _ => pose proof (reading_frame msgs w0) as F end.
  cbv zeta in F. destruct F as [_ [F _]]. rewrite F. reflexivity.
Qed.

(** Whatever the service does, the loop never reorders or skips: its calls
    are an initial segment of the calls of the queries taken in the order
    supplied. *)
Lemma query_loop_calls_prefix (pc : Client) (agent : AzureAIAgent.t) (thread_id : Id)
    (user_inputs : list string) (w : World R) :
  exists (evs : list Event) (rest : list Call),
    calls (snd (query_loop svc pc agent thread_id user_inputs w)) = calls w ++ evs
    /\ flat_map (query_calls thread_id (AzureAIAgent.id agent)) user_inputs
       = map ev_call evs ++ rest.
Proof.
  revert w. induction user_inputs as [| q qs IH]; intro w.
  - exists [], []. cbn. now rewrite app_nil_r.
  - unfold query_loop in *. cbn [for_each flat_map]. unfold bind at 1.
    destruct (process_query_calls_prefix pc agent thread_id q w) as [evs [rest [Hc Hp]]].
    destruct (process_query svc pc agent thread_id q w) as [[u | e] w1] eqn:E.
    + cbn [fst snd] in *.
      destruct (process_query_calls pc agent thread_id q w) as [o' [more' [Hc' [_ Hok']]]].
      rewrite E in Hc', Hok'. cbn [fst snd] in *. specialize (Hok' u eq_refl).
      rewrite Hok' in Hc'.
      destruct (IH w1) as [evs' [rest' [Hc1 Hp1]]].
      exists (map returned (query_calls thread_id (AzureAIAgent.id agent) q) ++ evs'), rest'.
      split.
      * rewrite Hc1, Hc', <- app_assoc. reflexivity.
      * rewrite map_app, calls_of_returned, Hp1, <- app_assoc. reflexivity.
    + cbn [snd] in *.
      exists evs, (rest ++ flat_map (query_calls thread_id (AzureAIAgent.id agent)) qs).
      split; [exact Hc |].
      rewrite Hp, <- app_assoc. reflexivity.
Qed.

End Facts.

(** * Concrete executions on the in-memory service *)

(** On the in-memory service, for every query and every log the thread
    already holds: when nothing fails, the listing shows the whole log and the
    run adds no message (whatever its status), the most recent message is the
    user message just appended and the driver prints the query back. *)
Lemma silent_run_echoes_query (cfg : Fake.Config) (pc : Client) (agent : AzureAIAgent.t)
    (thread_id : Id) (user_query : string) (w : World Fake.State) (log : list Message) :
  (forall s c, Fake.faulty cfg s c = false) ->
  (forall l, Fake.listing cfg l = {| data := Some l |}) ->
  (forall l, snd (Fake.agent_reply cfg l) = []) ->
  Fake.find thread_id (Fake.threads (remote w)) = Some log ->
  Fake.mem (AzureAIAgent.id agent) (Fake.agents (remote w)) = true ->
  stdout (snd (process_query (Fake.service cfg) pc agent thread_id user_query w))
  = stdout w ++ [nl +++ "Processing query: " +++ user_query; "Responses:";
                 "Text: " +++ user_query; SEPARATOR]
  /\ fst (process_query (Fake.service cfg) pc agent thread_id user_query w) = Ok tt.
Proof.
  intros Hf Hl Hr Hfind Hmem.
  pose (m := text_message USER user_query).
  pose (s1 := Fake.Build_State (Fake.next_id (remote w)) (Fake.files (remote w))
                (Fake.stores (remote w)) (Fake.agents (remote w))
                ((thread_id, m :: log) :: Fake.drop thread_id (Fake.threads (remote w)))).
  pose (s2 := Fake.Build_State (Fake.next_id s1) (Fake.files s1) (Fake.stores s1)
                (Fake.agents s1)
                ((thread_id, m :: log) :: Fake.drop thread_id (Fake.threads s1))).
  assert (Hfind1 : Fake.find thread_id (Fake.threads s1) = Some (m :: log))
    by (cbn; now rewrite String.eqb_refl).
  assert (Hfind2 : Fake.find thread_id (Fake.threads s2) = Some (m :: log))
    by (cbn; now rewrite String.eqb_refl).
  rewrite (process_query_text_lines (Fake.service cfg) pc agent thread_id user_query w
             m m log (fst (Fake.agent_reply cfg (m :: log)))
             {| data := Some (m :: log) |} s1 s2 s2).
  - split; reflexivity.
  - cbn. unfold Fake.create_message. rewrite Hf, Hfind. reflexivity.
  - cbn. unfold Fake.create_and_process_run. rewrite Hf, Hfind1.
    cbn [Fake.agents s1]. rewrite Hmem.
    specialize (Hr (m :: log)).
    destruct (Fake.agent_reply cfg (m :: log)) as [run added]. cbn in Hr. subst added.
    reflexivity.
  - cbn. unfold Fake.list_messages. rewrite Hf, Hfind2, Hl. reflexivity.
  - reflexivity.
  - reflexivity.
Qed.

(** C10 at work: with an undeletable thread, agent or file, the cleanup that
    starts with all four resources in place stops at the failing call. *)
Lemma cleanup_is_not_fault_isolated_witness :
  cleanup Run.thread_undeletable Scenario.globals Scenario.the_client Scenario.the_agent
    Scenario.the_thread Scenario.ready
  = (Raise Run.ERR,
     Build_World Scenario.ready_state [raised (DeleteThread "thread_4") Run.ERR] []
       Scenario.env)
  /\ snd (cleanup Run.agent_undeletable Scenario.globals Scenario.the_client
            Scenario.the_agent Scenario.the_thread Scenario.ready)
     = Build_World (Fake.Build_State 5 ["file_1"] [("vs_2", ["file_1"])] ["agent_3"] [])
         [returned (DeleteThread "thread_4"); raised (DeleteAgent "agent_3") Run.ERR] []
         Scenario.env
  /\ snd (cleanup Run.file_undeletable Scenario.globals Scenario.the_client
            Scenario.the_agent Scenario.the_thread Scenario.ready)
     = Build_World (Fake.Build_State 5 ["file_1"] [("vs_2", ["file_1"])] [] [])
         [returned (DeleteThread "thread_4"); returned (DeleteAgent "agent_3");
          raised (DeleteFile "file_1") Run.ERR] []
         Scenario.env.
Proof.
  pose proof (cleanup_is_not_fault_isolated Run.thread_undeletable Scenario.globals
                Scenario.the_client Scenario.the_agent Scenario.the_thread Scenario.ready)
    as [H1 _].
  pose proof (cleanup_is_not_fault_isolated Run.agent_undeletable Scenario.globals
                Scenario.the_client Scenario.the_agent Scenario.the_thread Scenario.ready)
    as [_ [H2 _]].
  pose proof (cleanup_is_not_fault_isolated Run.file_undeletable Scenario.globals
                Scenario.the_client Scenario.the_agent Scenario.the_thread Scenario.ready)
    as [_ [_ H3]].
  split; [| split].
  - apply (H1 Run.ERR Scenario.ready_state). reflexivity.
  - rewrite (H2 Run.ERR _ _ eq_refl eq_refl). reflexivity.
  - rewrite (H3 Run.ERR _ _ _ eq_refl eq_refl eq_refl). reflexivity.
Defined.

(** C1 as stated fails: with an undeletable thread the cleanup after the two
    queries issues delete thread only, not the four deletions. *)
Lemma teardown_may_skip_deletions :
  map ev_call
    (issued_after
       (snd (query_loop Run.thread_undeletable (project_client Scenario.globals)
               Scenario.the_agent (AgentThread.id Scenario.the_thread) user_inputs
               Scenario.ready))
       (snd (run_queries Run.thread_undeletable Scenario.globals Scenario.the_client
               Scenario.the_agent Scenario.the_thread user_inputs Scenario.ready)))
  <> deletion_calls Scenario.globals Scenario.the_agent Scenario.the_thread.
Proof.
  vm_compute. discriminate.
Qed.

(** C8 at work: on a healthy service the cell uploads, then indexes the file
    it got back, and two resources exist afterwards. *)
Lemma provision_uploads_then_indexes_witness :
  provision Run.healthy Fake.world0
  = (Ok (Scenario.the_client, Scenario.the_file, Scenario.the_store), Run.provisioned)
  /\ map ev_call (calls Run.provisioned)
     = [UploadFile "document.md" AGENTS; CreateVectorStore ["file_1"] "vector_store"]
  /\ owned (issued_after Fake.world0 Run.provisioned)
     = [FileResource "file_1"; VectorStoreResource "vs_2"]
  /\ Fake.resources (remote Run.provisioned) = 2.
Proof.
  assert (H : provision Run.healthy Fake.world0
              = (Ok (Scenario.the_client, Scenario.the_file, Scenario.the_store),
                 Run.provisioned)) by (vm_compute; reflexivity).
  destruct (provision_uploads_then_indexes Run.healthy _ _ _ _ _ H)
    as [r1 [_ [_ [_ Ho]]]].
  split; [exact H | split; [reflexivity | split; [exact Ho | reflexivity]]].
Defined.

(** C2 as stated fails: the agent answers with one message of two text
    blocks, and the driver prints the second block as well as the first. *)
Lemma later_text_blocks_are_printed :
  answers (stdout (snd (Run.ask Run.two_blocks))) <> ["Text: Coverage includes X"]
  /\ In "Text: See section 4 of the policy" (answers (stdout (snd (Run.ask Run.two_blocks)))).
Proof.
  split.
  - vm_compute. discriminate.
  - vm_compute. right. left. reflexivity.
Qed.

(** C2 as the code has it, at work on the same service. *)
Lemma process_query_prints_every_text_block_witness :
  Fake.create_message (Fake.Build_Config Scenario.healthy Scenario.two_blocks
                         Scenario.whole_log)
    "thread_4" USER Scenario.QUERY Scenario.ready_state
  = (Ok (text_message USER Scenario.QUERY),
     Scenario.with_log [text_message USER Scenario.QUERY])
  /\ answers (stdout (snd (Run.ask Run.two_blocks)))
     = ["Text: Coverage includes X"; "Text: See section 4 of the policy"].
Proof.
  split; [reflexivity |].
  unfold Run.ask.
  rewrite (process_query_prints_every_text_block Run.two_blocks Scenario.the_client
             Scenario.the_agent "thread_4" Scenario.QUERY Scenario.ready
             (text_message USER Scenario.QUERY)
             Scenario.two_block_message
             [text_message USER Scenario.QUERY]
             (ThreadRun.Build "completed")
             {| data := Some [Scenario.two_block_message;
                              text_message USER Scenario.QUERY] |}
             (Scenario.with_log [text_message USER Scenario.QUERY])
             (Scenario.with_log [Scenario.two_block_message;
                                 text_message USER Scenario.QUERY])
             (Scenario.with_log [Scenario.two_block_message;
                                 text_message USER Scenario.QUERY]));
    reflexivity.
Defined.

(** C3 as stated fails: when the runs raise, the loop over the two queries
    of the notebook issues one append and one run, not two of each. *)
Lemma failed_run_cuts_the_calls_short :
  length (appends (issued_after Scenario.ready
            (snd (query_loop Run.runs_fail Scenario.the_client Scenario.the_agent
                    "thread_4" user_inputs Scenario.ready))))
  <> length user_inputs
  /\ length (runs (issued_after Scenario.ready
               (snd (query_loop Run.runs_fail Scenario.the_client Scenario.the_agent
                       "thread_4" user_inputs Scenario.ready))))
     <> length user_inputs.
Proof.
  split; vm_compute; discriminate.
Qed.

(** C3 as the code has it, at work: on a healthy service the loop over the
    two queries of the notebook completes, with two appends carrying the two
    queries in order and two runs, all on "thread_4". *)
Lemma query_loop_calls_in_order_witness :
  fst (query_loop Run.healthy Scenario.the_client Scenario.the_agent "thread_4"
         user_inputs Scenario.ready) = Ok tt
  /\ appends (issued_after Scenario.ready
               (snd (query_loop Run.healthy Scenario.the_client Scenario.the_agent
                       "thread_4" user_inputs Scenario.ready)))
     = [ ("thread_4", USER, "Can you explain Contoso's travel insurance coverage?");
         ("thread_4", USER, "What is Neural Network?") ]
  /\ runs (issued_after Scenario.ready
             (snd (query_loop Run.healthy Scenario.the_client Scenario.the_agent
                     "thread_4" user_inputs Scenario.ready)))
     = [ ("thread_4", "agent_3"); ("thread_4", "agent_3") ].
Proof.
  assert (H : query_loop Run.healthy Scenario.the_client Scenario.the_agent "thread_4"
                user_inputs Scenario.ready
              = (Ok tt,
                 snd (query_loop Run.healthy Scenario.the_client Scenario.the_agent
                        "thread_4" user_inputs Scenario.ready)))
    by (vm_compute; reflexivity).
  destruct (query_loop_calls_in_order Run.healthy _ _ _ _ _ _ H) as [_ [Ha [Hr _]]].
  split; [vm_compute; reflexivity | split; [exact Ha | exact Hr]].
Defined.

(** C4 as stated fails: the run of the second query raises and the thread
    cannot be deleted; the cleanup is entered, but delete agent, delete file
    and delete vector store are not issued at all. *)
Lemma failed_run_then_failed_deletion :
  In (raised (CreateAndProcessRun "thread_4" "agent_3") Run.ERR)
     (calls (snd (Run.batch Run.second_run_and_thread_deletion_fail user_inputs)))
  /\ count_calls Scenario.is_delete_thread
       (calls (snd (Run.batch Run.second_run_and_thread_deletion_fail user_inputs))) = 1
  /\ count_calls Scenario.is_delete_agent
       (calls (snd (Run.batch Run.second_run_and_thread_deletion_fail user_inputs))) <> 1
  /\ count_calls Scenario.is_delete_file
       (calls (snd (Run.batch Run.second_run_and_thread_deletion_fail user_inputs))) <> 1.
Proof.
  split; [| split; [| split]].
  - vm_compute. do 4 right. left. reflexivity.
  - vm_compute. reflexivity.
  - vm_compute. discriminate.
  - vm_compute. discriminate.
Qed.

(** C4 as the code has it, at work: the run of the second of three queries
    raises; the third query is never sent and the cleanup follows the failed
    run. *)
Lemma failed_run_aborts_batch_then_cleanup_witness :
  fst (query_loop Run.second_run_fails Scenario.the_client Scenario.the_agent "thread_4"
         ["Can you explain Contoso's travel insurance coverage?"] Scenario.ready) = Ok tt
  /\ exists (done : list Call) (last : Event) (rest : list Call),
       issued_after Scenario.ready
         (snd (Run.batch Run.second_run_fails
                 (["Can you explain Contoso's travel insurance coverage?"]
                  ++ "What is Neural Network?" :: ["What is covered abroad?"])))
       = map returned
           (flat_map (query_calls "thread_4" "agent_3")
              ["Can you explain Contoso's travel insurance coverage?"])
         ++ [returned (CreateMessage "thread_4" USER "What is Neural Network?");
             raised (CreateAndProcessRun "thread_4" "agent_3") Run.ERR]
         ++ map returned done ++ [last]
       /\ deletion_calls Scenario.globals Scenario.the_agent Scenario.the_thread
          = done ++ ev_call last :: rest
       /\ ((ev_outcome last = Returned None /\ rest = []
            /\ fst (Run.batch Run.second_run_fails
                      (["Can you explain Contoso's travel insurance coverage?"]
                       ++ "What is Neural Network?" :: ["What is covered abroad?"]))
               = Raise Run.ERR)
           \/ exists e', ev_outcome last = Raised e'
                         /\ fst (Run.batch Run.second_run_fails
                                   (["Can you explain Contoso's travel insurance coverage?"]
                                    ++ "What is Neural Network?"
                                       :: ["What is covered abroad?"]))
                            = Raise (Chained e' Run.ERR)).
Proof.
  split; [vm_compute; reflexivity |].
  unfold Run.batch.
  refine (failed_run_aborts_batch_then_cleanup Run.second_run_fails
            Scenario.globals Scenario.the_client Scenario.the_agent Scenario.the_thread
            ["Can you explain Contoso's travel insurance coverage?"]
            "What is Neural Network?" ["What is covered abroad?"] Scenario.ready
            (snd (query_loop Run.second_run_fails Scenario.the_client
                    Scenario.the_agent "thread_4"
                    ["Can you explain Contoso's travel insurance coverage?"]
                    Scenario.ready))
            (text_message USER "What is Neural Network?")
            Run.ERR
            (Scenario.with_log
               [text_message USER "What is Neural Network?";
                text_message ASSISTANT "Coverage includes X";
                text_message USER "Can you explain Contoso's travel insurance coverage?"])
            (Scenario.with_log
               [text_message USER "What is Neural Network?";
                text_message ASSISTANT "Coverage includes X";
                text_message USER "Can you explain Contoso's travel insurance coverage?"])
            _ _ _).
  - vm_compute; reflexivity.
  - vm_compute; reflexivity.
  - vm_compute; reflexivity.
Defined.

(** The calls of that execution, spelled out. *)
Example failed_run_trace :
  map ev_call
    (calls (snd (Run.batch Run.second_run_fails
                   ["Can you explain Contoso's travel insurance coverage?";
                    "What is Neural Network?"; "What is covered abroad?"])))
  = [ CreateMessage "thread_4" USER "Can you explain Contoso's travel insurance coverage?";
      CreateAndProcessRun "thread_4" "agent_3";
      ListMessages "thread_4";
      CreateMessage "thread_4" USER "What is Neural Network?";
      CreateAndProcessRun "thread_4" "agent_3";
      DeleteThread "thread_4"; DeleteAgent "agent_3"; DeleteFile "file_1";
      DeleteVectorStore "vs_2" ].
Proof.
  vm_compute. reflexivity.
Qed.

(** C7 at work: an answer without any text block, and a listing without
    any message, both end with nothing printed between "Responses:" and the
    separator, and without an exception. *)
Lemma process_query_silent_without_text_witness :
  Run.ask Run.image_only
  = (Ok tt,
     Build_World
       (Scenario.with_log [Scenario.image_message; text_message USER Scenario.QUERY])
       (map returned (query_calls "thread_4" "agent_3" Scenario.QUERY))
       [nl +++ "Processing query: " +++ Scenario.QUERY; "Responses:"; SEPARATOR]
       Scenario.env)
  /\ Run.ask Run.no_data
     = (Ok tt,
        Build_World
          (Scenario.with_log [text_message ASSISTANT "Coverage includes X";
                              text_message USER Scenario.QUERY])
          (map returned (query_calls "thread_4" "agent_3" Scenario.QUERY))
          [nl +++ "Processing query: " +++ Scenario.QUERY; "Responses:"; SEPARATOR]
          Scenario.env).
Proof.
  split.
  - refine (proj1 (process_query_silent_without_text Run.image_only Scenario.the_client
                     Scenario.the_agent "thread_4" Scenario.QUERY [] Scenario.ready
                     (text_message USER Scenario.QUERY) (ThreadRun.Build "completed")
                     {| data := Some [Scenario.image_message;
                                      text_message USER Scenario.QUERY] |}
                     (Scenario.with_log [text_message USER Scenario.QUERY])
                     (Scenario.with_log [Scenario.image_message;
                                         text_message USER Scenario.QUERY])
                     (Scenario.with_log [Scenario.image_message;
                                         text_message USER Scenario.QUERY])
                     _ _ _ _)).
    + vm_compute; reflexivity.
    + vm_compute; reflexivity.
    + vm_compute; reflexivity.
    + right. exists Scenario.image_message, [text_message USER Scenario.QUERY].
      split; reflexivity.
  - refine (proj1 (process_query_silent_without_text Run.no_data Scenario.the_client
                     Scenario.the_agent "thread_4" Scenario.QUERY [] Scenario.ready
                     (text_message USER Scenario.QUERY) (ThreadRun.Build "completed")
                     {| data := None |}
                     (Scenario.with_log [text_message USER Scenario.QUERY])
                     (Scenario.with_log [text_message ASSISTANT "Coverage includes X";
                                         text_message USER Scenario.QUERY])
                     (Scenario.with_log [text_message ASSISTANT "Coverage includes X";
                                         text_message USER Scenario.QUERY])
                     _ _ _ _)).
    + vm_compute; reflexivity.
    + vm_compute; reflexivity.
    + vm_compute; reflexivity.
    + left. reflexivity.
Defined.

(** C9 at work: the run ends in the failed state and adds no message; the
    listing, most recent first, starts with the user message just appended,
    and the driver prints the query back as the answer. *)
Lemma process_query_echoes_own_message_witness :
  Fake.create_and_process_run
    (Fake.Build_Config Scenario.healthy Scenario.silent_failure Scenario.whole_log)
    "thread_4" "agent_3" (Scenario.with_log [text_message USER Scenario.QUERY])
  = (Ok (ThreadRun.Build "failed"), Scenario.with_log [text_message USER Scenario.QUERY])
  /\ Run.ask Run.silent_failure
     = (Ok tt,
        Build_World
          (Scenario.with_log [text_message USER Scenario.QUERY])
          (map returned (query_calls "thread_4" "agent_3" Scenario.QUERY))
          [nl +++ "Processing query: " +++ Scenario.QUERY; "Responses:";
           "Text: " +++ Scenario.QUERY; SEPARATOR]
          Scenario.env).
Proof.
  split; [reflexivity |].
  refine (process_query_echoes_own_message Run.silent_failure Scenario.the_client
            Scenario.the_agent "thread_4" Scenario.QUERY Scenario.ready
            (text_message USER Scenario.QUERY) [] (ThreadRun.Build "failed")
            {| data := Some [text_message USER Scenario.QUERY] |}
            (Scenario.with_log [text_message USER Scenario.QUERY])
            (Scenario.with_log [text_message USER Scenario.QUERY])
            (Scenario.with_log [text_message USER Scenario.QUERY])
            _ _ _ _ _).
  - vm_compute; reflexivity.
  - reflexivity.
  - vm_compute; reflexivity.
  - vm_compute; reflexivity.
  - reflexivity.
Defined.

(** The whole notebook on a healthy service: every remote call in order, a
    normal return, and no resource left behind. *)
Example notebook_end_to_end :
  fst (notebook Run.healthy Fake.world0) = Ok tt
  /\ map ev_call (calls (snd (notebook Run.healthy Fake.world0)))
     = [ UploadFile "document.md" AGENTS;
         CreateVectorStore ["file_1"] "vector_store";
         CreateAgent "gpt-4o-mini" AGENT_NAME AGENT_INSTRUCTIONS
           [Build_FileSearchTool ["vs_2"]];
         CreateThread ]
       ++ flat_map (query_calls "thread_4" "agent_3") user_inputs
       ++ deletion_calls Scenario.globals Scenario.the_agent Scenario.the_thread
  /\ answers (stdout (snd (notebook Run.healthy Fake.world0)))
     = ["Text: Coverage includes X"; "Text: Coverage includes X"]
  /\ owned (calls (snd (notebook Run.healthy Fake.world0))) = []
  /\ Fake.resources (remote (snd (notebook Run.healthy Fake.world0))) = 0.
Proof.
  repeat apply conj; vm_compute; reflexivity.
Qed.

(** * Further properties of the notebook's code *)

(** ** The prompt template *)

Lemma append_cancel_l (a x y : string) : a +++ x = a +++ y -> x = y.
Proof.
  induction a as [| ch a IH]; simpl; intro H; [exact H |].
  injection H as H. now apply IH.
Qed.

Lemma append_cancel_r (b x y : string) : x +++ b = y +++ b -> x = y.
Proof.
  revert y. induction x as [| ch x IH]; intros [| ch' y] H; simpl in H.
  - reflexivity.
  - apply (f_equal String.length) in H. simpl in H. rewrite length_append in H. lia.
  - apply (f_equal String.length) in H. simpl in H. rewrite length_append in H. lia.
  - injection H as Hc H. subst ch'. f_equal. now apply IH.
Qed.

(** X1.  With the context fixed the prompt determines the query, and with the
    query fixed it determines the context: nothing of either string is lost
    or merged by the template. *)
Theorem build_augmented_prompt_injective_in_each (query query' context context' : string) :
  (PromptPlugin.build_augmented_prompt query context
   = PromptPlugin.build_augmented_prompt query' context -> query = query')
  /\ (PromptPlugin.build_augmented_prompt query context
      = PromptPlugin.build_augmented_prompt query context' -> context = context').
Proof.
  repeat rewrite PromptFacts.build_augmented_prompt_shape. split; intro H.
  - do 3 apply append_cancel_l in H. now apply append_cancel_r in H.
  - apply append_cancel_l in H. now apply append_cancel_r in H.
Qed.

(** X2.  The two strings are embedded without any delimiting or escaping, so
    the prompt does not determine the pair: a query that contains the text
    the template puts between context and query can be read either way.  For
    all strings a, b, c the pair (query b ++ MIDDLE ++ c, context a) and the
    different pair (query c, context a ++ MIDDLE ++ b) give the same prompt. *)
Theorem build_augmented_prompt_is_ambiguous (a b c : string) :
  PromptPlugin.build_augmented_prompt (b +++ PromptPlugin.MIDDLE +++ c) a
  = PromptPlugin.build_augmented_prompt c (a +++ PromptPlugin.MIDDLE +++ b)
  /\ a <> a +++ PromptPlugin.MIDDLE +++ b
  /\ b +++ PromptPlugin.MIDDLE +++ c <> c.
Proof.
  split; [| split].
  - repeat rewrite PromptFacts.build_augmented_prompt_shape.
    repeat rewrite append_assoc. reflexivity.
  - intro H. apply (f_equal String.length) in H.
    repeat rewrite length_append in H.
    assert (0 < String.length PromptPlugin.MIDDLE) by (vm_compute; lia). lia.
  - intro H. apply (f_equal String.length) in H.
    repeat rewrite length_append in H.
    assert (0 < String.length PromptPlugin.MIDDLE) by (vm_compute; lia). lia.
Qed.

Lemma build_augmented_prompt_injective_in_each_witness :
  PromptPlugin.build_augmented_prompt "What is covered?" "Policy text"
  = PromptPlugin.build_augmented_prompt "What is covered?" "Policy text"
  /\ "What is covered?" = "What is covered?" /\ "Policy text" = "Policy text".
Proof.
  split; [reflexivity | split].
  - exact (proj1 (build_augmented_prompt_injective_in_each
                    "What is covered?" "What is covered?" "Policy text" "Policy text")
             eq_refl).
  - exact (proj2 (build_augmented_prompt_injective_in_each
                    "What is covered?" "What is covered?" "Policy text" "Policy text")
             eq_refl).
Defined.

Section More.

Context {R : Type}.
Variable svc : Service R.

(** ** Provisioning: what happens when it does not complete *)

(** X3.  Without the connection string in the environment, the provisioning
    cell, [main] and the whole notebook raise KeyError before any remote call:
    the world is left exactly as it was. *)
Theorem nothing_happens_without_connection_string (g : Globals) (w : World R) :
  lookup CONNECTION_KEY (environ w) = None ->
  provision svc w = (Raise (KeyError CONNECTION_KEY), w)
  /\ main svc g w = (Raise (KeyError CONNECTION_KEY), w)
  /\ notebook svc w = (Raise (KeyError CONNECTION_KEY), w).
Proof.
  unfold CONNECTION_KEY. intro H.
  unfold notebook, provision, main, from_connection_string, create_client, environ_get, bind.
  rewrite H. repeat split.
Qed.

Lemma provision_constructor_raises (w : World R) (c : string) (e : Exn) :
  lookup CONNECTION_KEY (environ w) = Some c ->
  svc_from_connection_string svc c = Raise e ->
  provision svc w = (Raise e, w).
Proof.
  unfold CONNECTION_KEY. intros Hc Hk.
  unfold provision, from_connection_string, environ_get, local, bind.
  rewrite Hc, Hk. reflexivity.
Qed.

Lemma provision_upload_raises (w : World R) (c : string) (pc : Client) (e : Exn)
    (r1 : R) :
  lookup CONNECTION_KEY (environ w) = Some c ->
  svc_from_connection_string svc c = Ok pc ->
  svc_upload_file_and_poll svc "document.md" AGENTS (remote w) = (Raise e, r1) ->
  provision svc w
  = (Raise e,
     Build_World r1 (calls w ++ [raised (UploadFile "document.md" AGENTS) e])
       (stdout w) (environ w)).
Proof.
  unfold CONNECTION_KEY. intros Hc Hk H1.
  unfold provision, from_connection_string, environ_get, local, bind, ret,
    agents_upload_file_and_poll, invoke.
  rewrite Hc, Hk, H1. reflexivity.
Qed.

Lemma provision_store_raises (w : World R) (c : string) (pc : Client)
    (f : UploadedFile.t) (e : Exn) (r1 r2 : R) :
  lookup CONNECTION_KEY (environ w) = Some c ->
  svc_from_connection_string svc c = Ok pc ->
  svc_upload_file_and_poll svc "document.md" AGENTS (remote w) = (Ok f, r1) ->
  svc_create_vector_store_and_poll svc [UploadedFile.id f] "vector_store" r1
  = (Raise e, r2) ->
  provision svc w
  = (Raise e,
     Build_World r2
       (calls w ++ [created (UploadFile "document.md" AGENTS) (UploadedFile.id f);
                    raised (CreateVectorStore [UploadedFile.id f] "vector_store") e])
       (stdout w ++ ["Uploaded file, file ID: " +++ UploadedFile.id f])
       (environ w)).
Proof.
  unfold CONNECTION_KEY. intros Hc Hk H1 H2.
  unfold provision, from_connection_string, environ_get, local, bind, ret,
    agents_upload_file_and_poll, agents_create_vector_store_and_poll, invoke, print.
  rewrite Hc, Hk, H1. cbn [remote calls stdout environ]. rewrite H2.
  cbn [calls]. rewrite <- app_assoc. reflexivity.
Qed.

Lemma provision_returns (w : World R) (c : string) (pc : Client) (f : UploadedFile.t)
    (vs : VectorStore.t) (r1 r2 : R) :
  lookup CONNECTION_KEY (environ w) = Some c ->
  svc_from_connection_string svc c = Ok pc ->
  svc_upload_file_and_poll svc "document.md" AGENTS (remote w) = (Ok f, r1) ->
  svc_create_vector_store_and_poll svc [UploadedFile.id f] "vector_store" r1
  = (Ok vs, r2) ->
  provision svc w
  = (Ok (pc, f, vs),
     Build_World r2
       (calls w ++ [created (UploadFile "document.md" AGENTS) (UploadedFile.id f);
                    created (CreateVectorStore [UploadedFile.id f] "vector_store")
                      (VectorStore.id vs)])
       (stdout w ++ ["Uploaded file, file ID: " +++ UploadedFile.id f;
                     "Created vector store, vector store ID: " +++ VectorStore.id vs])
       (environ w)).
Proof.
  unfold CONNECTION_KEY. intros Hc Hk H1 H2.
  unfold provision, from_connection_string, environ_get, local, bind, ret,
    agents_upload_file_and_poll, agents_create_vector_store_and_poll, invoke, print.
  rewrite Hc, Hk, H1. cbn [remote calls stdout environ]. rewrite H2.
  cbn [remote calls stdout environ]. repeat rewrite <- app_assoc. reflexivity.
Qed.

(** X4.  Once the project client has been constructed from the connection
    string: if the upload raises, the vector store is never requested.  The
    upload is the only call of the notebook, nothing is printed, and no
    resource is owned. *)
Theorem failed_upload_ends_the_notebook (w : World R) (c : string) (pc : Client)
    (e : Exn) (r1 : R) :
  lookup CONNECTION_KEY (environ w) = Some c ->
  svc_from_connection_string svc c = Ok pc ->
  svc_upload_file_and_poll svc "document.md" AGENTS (remote w) = (Raise e, r1) ->
  notebook svc w
  = (Raise e,
     Build_World r1 (calls w ++ [raised (UploadFile "document.md" AGENTS) e])
       (stdout w) (environ w))
  /\ owned (issued_after w (snd (notebook svc w))) = [].
Proof.
  intros Hc Hk H1.
  assert (Hn : notebook svc w
               = (Raise e,
                  Build_World r1 (calls w ++ [raised (UploadFile "document.md" AGENTS) e])
                    (stdout w) (environ w))).
  { unfold notebook, bind. rewrite (provision_upload_raises w c pc e r1 Hc Hk H1).
    reflexivity. }
  split; [exact Hn |].
  rewrite Hn. cbn [snd]. erewrite issued_after_app by reflexivity. reflexivity.
Qed.

(** X5.  Once the project client has been constructed: if the creation of
    the vector store raises, the notebook ends with that exception and never
    deletes the file it has just uploaded.  The upload and the failed creation
    are its only calls, and the uploaded file stays owned. *)
Theorem failed_store_creation_leaks_the_file (w : World R) (c : string) (pc : Client)
    (f : UploadedFile.t) (e : Exn) (r1 r2 : R) :
  lookup CONNECTION_KEY (environ w) = Some c ->
  svc_from_connection_string svc c = Ok pc ->
  svc_upload_file_and_poll svc "document.md" AGENTS (remote w) = (Ok f, r1) ->
  svc_create_vector_store_and_poll svc [UploadedFile.id f] "vector_store" r1
  = (Raise e, r2) ->
  notebook svc w
  = (Raise e,
     Build_World r2
       (calls w ++ [created (UploadFile "document.md" AGENTS) (UploadedFile.id f);
                    raised (CreateVectorStore [UploadedFile.id f] "vector_store") e])
       (stdout w ++ ["Uploaded file, file ID: " +++ UploadedFile.id f])
       (environ w))
  /\ owned (issued_after w (snd (notebook svc w))) = [FileResource (UploadedFile.id f)].
Proof.
  intros Hc Hk H1 H2.
  assert (Hn : notebook svc w
               = (Raise e,
                  Build_World r2
                    (calls w
                     ++ [created (UploadFile "document.md" AGENTS) (UploadedFile.id f);
                         raised (CreateVectorStore [UploadedFile.id f] "vector_store") e])
                    (stdout w ++ ["Uploaded file, file ID: " +++ UploadedFile.id f])
                    (environ w))).
  { unfold notebook, bind. rewrite (provision_store_raises w c pc f e r1 r2 Hc Hk H1 H2).
    reflexivity. }
  split; [exact Hn |].
  rewrite Hn. cbn [snd]. erewrite issued_after_app by reflexivity. reflexivity.
Qed.

(** ** [main] before its [try] statement *)

Lemma main_constructor_raises (g : Globals) (w : World R) (c : string) (e : Exn) :
  lookup CONNECTION_KEY (environ w) = Some c ->
  svc_create_client svc c = Raise e ->
  main svc g w = (Raise e, w).
Proof.
  unfold CONNECTION_KEY. intros Hc Hk.
  unfold main, create_client, environ_get, local, bind.
  rewrite Hc, Hk. reflexivity.
Qed.

Lemma main_agent_raises (g : Globals) (w : World R) (c : string) (client : Client)
    (e : Exn) (r1 : R) :
  lookup CONNECTION_KEY (environ w) = Some c ->
  svc_create_client svc c = Ok client ->
  svc_create_agent svc "gpt-4o-mini" AGENT_NAME AGENT_INSTRUCTIONS (toolset g) (remote w)
  = (Raise e, r1) ->
  main svc g w
  = (Raise e,
     Build_World r1 (calls w ++ [raised (create_agent_call (toolset g)) e])
       (stdout w) (environ w)).
Proof.
  unfold CONNECTION_KEY. intros Hc Hk H1.
  unfold main, create_client, environ_get, local, bind, ret, agents_create_agent, invoke.
  rewrite Hc, Hk, H1. reflexivity.
Qed.

Lemma main_thread_raises (g : Globals) (w : World R) (c : string) (client : Client)
    (a : Agent.t) (e : Exn) (r1 r2 : R) :
  lookup CONNECTION_KEY (environ w) = Some c ->
  svc_create_client svc c = Ok client ->
  svc_create_agent svc "gpt-4o-mini" AGENT_NAME AGENT_INSTRUCTIONS (toolset g) (remote w)
  = (Ok a, r1) ->
  svc_create_thread svc r1 = (Raise e, r2) ->
  main svc g w
  = (Raise e,
     Build_World r2
       (calls w ++ [created (create_agent_call (toolset g)) (Agent.id a);
                    raised CreateThread e])
       (stdout w) (environ w)).
Proof.
  unfold CONNECTION_KEY. intros Hc Hk H1 H2.
  unfold main, create_client, environ_get, local, bind, ret, agents_create_agent,
    agents_create_thread, invoke.
  rewrite Hc, Hk, H1. cbn [remote calls stdout environ]. rewrite H2.
  cbn [calls]. rewrite <- app_assoc. reflexivity.
Qed.

(** With client, agent and thread created, [main] is its [try] statement,
    run with the client and the identifiers it was given. *)
Lemma main_enters_try (g : Globals) (w : World R) (c : string) (client : Client)
    (a : Agent.t) (t : AgentThread.t) (r1 r2 : R) :
  lookup CONNECTION_KEY (environ w) = Some c ->
  svc_create_client svc c = Ok client ->
  svc_create_agent svc "gpt-4o-mini" AGENT_NAME AGENT_INSTRUCTIONS (toolset g) (remote w)
  = (Ok a, r1) ->
  svc_create_thread svc r1 = (Ok t, r2) ->
  main svc g w
  = run_queries svc g client (agent_of client a) t user_inputs
      (Build_World r2
         (calls w ++ [created (create_agent_call (toolset g)) (Agent.id a);
                      created CreateThread (AgentThread.id t)])
         (stdout w ++ ["Created thread, thread ID: " +++ AgentThread.id t])
         (environ w)).
Proof.
  unfold CONNECTION_KEY. intros Hc Hk H1 H2.
  unfold main, create_client, environ_get, local, bind, ret, agents_create_agent,
    agents_create_thread, invoke, print.
  rewrite Hc, Hk, H1. cbn [remote calls stdout environ]. rewrite H2.
  cbn [remote calls stdout environ]. rewrite <- app_assoc. reflexivity.
Qed.

(** X6.  The cleanup guards the queries only.  Once the client of [main] has
    been constructed: if creating the agent raises, or creating the thread
    raises, [main] ends with that exception before its [try] statement: no
    deletion is issued, nothing is printed, and in the second case the agent
    just created stays owned. *)
Theorem no_cleanup_before_the_try (g : Globals) (w : World R) (c : string)
    (client : Client) :
  lookup CONNECTION_KEY (environ w) = Some c ->
  svc_create_client svc c = Ok client ->
  (forall e r1,
      svc_create_agent svc "gpt-4o-mini" AGENT_NAME AGENT_INSTRUCTIONS (toolset g)
        (remote w) = (Raise e, r1) ->
      main svc g w
      = (Raise e,
         Build_World r1 (calls w ++ [raised (create_agent_call (toolset g)) e])
           (stdout w) (environ w)))
  /\ (forall a e r1 r2,
      svc_create_agent svc "gpt-4o-mini" AGENT_NAME AGENT_INSTRUCTIONS (toolset g)
        (remote w) = (Ok a, r1) ->
      svc_create_thread svc r1 = (Raise e, r2) ->
      main svc g w
      = (Raise e,
         Build_World r2
           (calls w ++ [created (create_agent_call (toolset g)) (Agent.id a);
                        raised CreateThread e])
           (stdout w) (environ w))
      /\ owned (issued_after w (snd (main svc g w))) = [AgentResource (Agent.id a)]).
Proof.
  intros Hc Hk. split.
  - intros e r1 H1. exact (main_agent_raises g w c client e r1 Hc Hk H1).
  - intros a e r1 r2 H1 H2.
    pose proof (main_thread_raises g w c client a e r1 r2 Hc Hk H1 H2) as Hm.
    split; [exact Hm |].
    rewrite Hm. cbn [snd]. erewrite issued_after_app by reflexivity. reflexivity.
Qed.

(** X14.  The client constructors run before any remote call.  If the
    constructor of the project client raises on the connection string (an
    empty or malformed one), the provisioning cell and the notebook end with
    that exception and the world untouched; if the constructor of the client
    of [main] raises, [main] ends with that exception before it creates the
    agent. *)
Theorem rejected_connection_string_stops_everything (g : Globals) (w : World R)
    (c : string) :
  lookup CONNECTION_KEY (environ w) = Some c ->
  (forall e, svc_from_connection_string svc c = Raise e ->
             provision svc w = (Raise e, w) /\ notebook svc w = (Raise e, w))
  /\ (forall e, svc_create_client svc c = Raise e -> main svc g w = (Raise e, w)).
Proof.
  intro Hc. split.
  - intros e Hk. pose proof (provision_constructor_raises w c e Hc Hk) as Hp.
    split; [exact Hp |]. unfold notebook, bind. rewrite Hp. reflexivity.
  - intros e Hk. exact (main_constructor_raises g w c e Hc Hk).
Qed.

(** ** The whole notebook *)

Lemma try_finally_ok_inv {A} (body : M R A) (fin : M R unit) (w w' : World R) (a : A) :
  try_finally body fin w = (Ok a, w') ->
  exists w1, body w = (Ok a, w1) /\ fin w1 = (Ok tt, w').
Proof.
  unfold try_finally.
  destruct (body w) as [[a0 | e] w1]; destruct (fin w1) as [[[] | e'] w2] eqn:Ef;
    intro H; inversion H; subst.
  exists w1. split; [reflexivity | exact Ef].
Qed.

(** A cleanup that returns has issued the four deletions, all returned, and
    printed its closing line. *)
Lemma cleanup_ok_inv (g : Globals) (client : Client) (agent : AzureAIAgent.t)
    (thread : AgentThread.t) (w w' : World R) (u : unit) :
  cleanup svc g client agent thread w = (Ok u, w') ->
  calls w' = calls w ++ map returned (deletion_calls g agent thread)
  /\ stdout w' = stdout w ++ [CLEANED_UP].
Proof.
  intro H.
  destruct (svc_delete_thread svc (AgentThread.id thread) (remote w))
    as [[[] | e1] r1] eqn:E1.
  2:{ rewrite (cleanup_thread_raises svc g client agent thread w e1 r1 E1) in H.
      discriminate. }
  destruct (svc_delete_agent svc (AzureAIAgent.id agent) r1) as [[[] | e2] r2] eqn:E2.
  2:{ rewrite (cleanup_agent_raises svc g client agent thread w e2 r1 r2 E1 E2) in H.
      discriminate. }
  destruct (svc_delete_file svc (UploadedFile.id (uploaded_file g)) r2)
    as [[[] | e3] r3] eqn:E3.
  2:{ rewrite (cleanup_file_raises svc g client agent thread w e3 r1 r2 r3 E1 E2 E3) in H.
      discriminate. }
  destruct (svc_delete_vector_store svc (VectorStore.id (vector_store g)) r3)
    as [[[] | e4] r4] eqn:E4.
  2:{ rewrite (cleanup_store_raises svc g client agent thread w e4 r1 r2 r3 r4
                 E1 E2 E3 E4) in H.
      discriminate. }
  rewrite (cleanup_all_return svc g client agent thread w r1 r2 r3 r4 E1 E2 E3 E4) in H.
  inversion H; subst. split; reflexivity.
Qed.

Lemma owned_app (a b : list Event) : owned (a ++ b) = fold_left owned_step b (owned a).
Proof. unfold owned. apply fold_left_app. Qed.

(** The calls of the queries neither create nor delete a resource. *)
Lemma owned_step_query_call (acc : list Resource) (e : Event) :
  is_query_call (ev_call e) = true -> owned_step acc e = acc.
Proof.
  destruct e as [c o]. destruct c; cbn; try discriminate; reflexivity.
Qed.

Lemma owned_query_calls (evs : list Event) (acc : list Resource) :
  forallb (fun e => is_query_call (ev_call e)) evs = true ->
  fold_left owned_step evs acc = acc.
Proof.
  revert acc. induction evs as [| e evs IH]; intros acc H; [reflexivity |].
  cbn in H. apply andb_true_iff in H. destruct H as [He H].
  cbn [fold_left]. rewrite (owned_step_query_call acc e He). now apply IH.
Qed.

Lemma query_calls_are_query_calls (thread_id assistant_id : Id) (qs : list string) :
  forallb is_query_call (flat_map (query_calls thread_id assistant_id) qs) = true.
Proof.
  induction qs as [| q qs IH]; [reflexivity | exact IH].
Qed.

(** The events of a query loop, complete or cut short, are query calls. *)
Lemma prefix_of_query_calls (thread_id assistant_id : Id) (qs : list string)
    (evs : list Event) (rest : list Call) :
  flat_map (query_calls thread_id assistant_id) qs = map ev_call evs ++ rest ->
  forallb (fun e => is_query_call (ev_call e)) evs = true.
Proof.
  intro H.
  pose proof (query_calls_are_query_calls thread_id assistant_id qs) as F.
  rewrite H, forallb_app in F. apply andb_true_iff in F. destruct F as [F _].
  clear H. induction evs as [| e evs IH]; [reflexivity |].
  cbn in *. apply andb_true_iff in F. destruct F as [F1 F2].
  rewrite F1. now apply IH.
Qed.

(** Deleting the four resources of the cleanup from a list of owned
    resources leaves none of them. *)
Lemma released_after_deletions (g : Globals) (agent : AzureAIAgent.t)
    (thread : AgentThread.t) (acc : list Resource) (r : Resource) :
  In r (released g agent thread) ->
  ~ In r (fold_left owned_step (map returned (deletion_calls g agent thread)) acc).
Proof.
  intros Hr Hin. cbn in Hin.
  unfold owned_step in Hin. cbn in Hin.
  repeat (apply filter_In in Hin; let Hp := fresh "Hp" in destruct Hin as [Hin Hp]).
  cbn in Hr.
  destruct Hr as [<- | [<- | [<- | [<- | []]]]]; cbn in *;
    rewrite String.eqb_refl in *; discriminate.
Qed.

Lemma provision_without_key (w : World R) :
  lookup CONNECTION_KEY (environ w) = None ->
  provision svc w = (Raise (KeyError CONNECTION_KEY), w).
Proof.
  unfold CONNECTION_KEY. intro H.
  unfold provision, from_connection_string, environ_get, bind. rewrite H. reflexivity.
Qed.

(** X7.  When the notebook returns normally, its remote calls were exactly:
    the upload; the creation of the vector store over the uploaded file; the
    creation of the agent with a file-search tool on that vector store; the
    creation of the thread; for each of the two queries, in order, create
    message, run and list messages on that thread with that agent; and the
    deletion of that thread, that agent, that file and that vector store.
    Every identifier used is the one the service returned, and nothing the
    notebook created is left. *)
Theorem notebook_deletes_what_it_created (w w' : World R) :
  notebook svc w = (Ok tt, w') ->
  exists (f : UploadedFile.t) (vs : VectorStore.t) (a : Agent.t) (t : AgentThread.t),
    issued_after w w'
    = [ created (UploadFile "document.md" AGENTS) (UploadedFile.id f);
        created (CreateVectorStore [UploadedFile.id f] "vector_store") (VectorStore.id vs);
        created (create_agent_call [Build_FileSearchTool [VectorStore.id vs]]) (Agent.id a);
        created CreateThread (AgentThread.id t) ]
      ++ map returned (flat_map (query_calls (AgentThread.id t) (Agent.id a)) user_inputs)
      ++ map returned [ DeleteThread (AgentThread.id t); DeleteAgent (Agent.id a);
                        DeleteFile (UploadedFile.id f);
                        DeleteVectorStore (VectorStore.id vs) ]
    /\ owned (issued_after w w') = [].
Proof.
  intro H. unfold notebook in H. unfold bind at 1 in H.
  destruct (lookup CONNECTION_KEY (environ w)) as [c |] eqn:Hc.
  2:{ rewrite (provision_without_key w Hc) in H. discriminate. }
  destruct (svc_from_connection_string svc c) as [pc | e] eqn:Ek.
  2:{ rewrite (provision_constructor_raises w c e Hc Ek) in H. discriminate. }
  destruct (svc_upload_file_and_poll svc "document.md" AGENTS (remote w))
    as [[f | e] r1] eqn:E1.
  2:{ rewrite (provision_upload_raises w c pc e r1 Hc Ek E1) in H. discriminate. }
  destruct (svc_create_vector_store_and_poll svc [UploadedFile.id f] "vector_store" r1)
    as [[vs | e] r2] eqn:E2.
  2:{ rewrite (provision_store_raises w c pc f e r1 r2 Hc Ek E1 E2) in H. discriminate. }
  rewrite (provision_returns w c pc f vs r1 r2 Hc Ek E1 E2) in H.
  set (g := Build_Globals pc f vs (bind_tools vs)) in H.
  match type of H with main svc g ?w0 = _ => set (w2 := w0) in H end.
  assert (Hc2 : lookup CONNECTION_KEY (environ w2) = Some c) by exact Hc.
  destruct (svc_create_client svc c) as [client | e] eqn:Ec.
  2:{ rewrite (main_constructor_raises g w2 c e Hc2 Ec) in H. discriminate. }
  destruct (svc_create_agent svc "gpt-4o-mini" AGENT_NAME AGENT_INSTRUCTIONS (toolset g)
              (remote w2)) as [[a | e] r3] eqn:E3.
  2:{ rewrite (main_agent_raises g w2 c client e r3 Hc2 Ec E3) in H. discriminate. }
  destruct (svc_create_thread svc r3) as [[t | e] r4] eqn:E4.
  2:{ rewrite (main_thread_raises g w2 c client a e r3 r4 Hc2 Ec E3 E4) in H.
      discriminate. }
  rewrite (main_enters_try g w2 c client a t r3 r4 Hc2 Ec E3 E4) in H.
  unfold run_queries in H.
  apply try_finally_ok_inv in H. destruct H as [w5 [Hloop Hclean]].
  apply query_loop_ok in Hloop.
  apply cleanup_ok_inv in Hclean. destruct Hclean as [Hclean _].
  exists f, vs, a, t.
  assert (Hcalls : calls w'
                   = calls w
                     ++ [ created (UploadFile "document.md" AGENTS) (UploadedFile.id f);
                          created (CreateVectorStore [UploadedFile.id f] "vector_store")
                            (VectorStore.id vs);
                          created (create_agent_call [Build_FileSearchTool [VectorStore.id vs]])
                            (Agent.id a);
                          created CreateThread (AgentThread.id t) ]
                     ++ map returned
                          (flat_map (query_calls (AgentThread.id t) (Agent.id a)) user_inputs)
                     ++ map returned [ DeleteThread (AgentThread.id t);
                                       DeleteAgent (Agent.id a);
                                       DeleteFile (UploadedFile.id f);
                                       DeleteVectorStore (VectorStore.id vs) ]).
  { rewrite Hclean, Hloop. unfold w2. cbn [calls].
    repeat rewrite <- app_assoc. reflexivity. }
  rewrite (issued_after_app _ _ _ Hcalls).
  split; [reflexivity |].
  rewrite owned_app, fold_left_app.
  rewrite (owned_query_calls
             (map returned
                (flat_map (query_calls (AgentThread.id t) (Agent.id a)) user_inputs))).
  - cbn. unfold owned_step. cbn. repeat (rewrite String.eqb_refl; cbn). reflexivity.
  - rewrite forallb_forall. intros e He. apply in_map_iff in He.
    destruct He as [c0 [<- Hin]]. cbn.
    pose proof (query_calls_are_query_calls (AgentThread.id t) (Agent.id a) user_inputs) as F.
    rewrite forallb_forall in F. now apply F.
Qed.

(** X8.  Whether the query loop completed or was cut short by an exception:
    if the cleanup that follows returns, then none of the thread, the agent,
    the uploaded file and the vector store is owned afterwards, and the
    closing line is the last thing printed. *)
Theorem completed_cleanup_releases_everything (g : Globals) (client : Client)
    (agent : AzureAIAgent.t) (thread : AgentThread.t) (user_inputs : list string)
    (w : World R) :
  fst (cleanup svc g client agent thread
         (snd (query_loop svc (project_client g) agent (AgentThread.id thread)
                 user_inputs w))) = Ok tt ->
  (forall r, In r (released g agent thread) ->
             ~ In r (owned (calls (snd (run_queries svc g client agent thread
                                          user_inputs w)))))
  /\ exists out,
       stdout (snd (run_queries svc g client agent thread user_inputs w))
       = out ++ [CLEANED_UP].
Proof.
  intro H.
  set (w1 := snd (query_loop svc (project_client g) agent (AgentThread.id thread)
                    user_inputs w)) in *.
  destruct (cleanup svc g client agent thread w1) as [[[] | e] w2] eqn:Ec;
    [| discriminate].
  unfold run_queries. rewrite try_finally_world. fold w1. rewrite Ec. cbn [snd].
  apply cleanup_ok_inv in Ec. destruct Ec as [Hc Hs].
  split.
  - intros r Hr. rewrite Hc, owned_app. now apply released_after_deletions.
  - exists (stdout w1). exact Hs.
Qed.

(** X9.  When the query loop has raised [e], the cleanup decides what leaves
    the [try] statement.  If delete thread raises [e'], it is [e'] that
    propagates, raised while [e] was being handled and so carrying [e] as its
    context; the "Cleaned up" line is not printed.  If the four deletions
    return, [e] itself propagates, after the cleanup and its closing line. *)
Theorem cleanup_failure_chains_query_failure (g : Globals) (client : Client)
    (agent : AzureAIAgent.t) (thread : AgentThread.t) (user_inputs : list string)
    (w w1 : World R) (e : Exn) :
  query_loop svc (project_client g) agent (AgentThread.id thread) user_inputs w
  = (Raise e, w1) ->
  (forall e' r1,
      svc_delete_thread svc (AgentThread.id thread) (remote w1) = (Raise e', r1) ->
      run_queries svc g client agent thread user_inputs w
      = (Raise (Chained e' e),
         Build_World r1 (calls w1 ++ [raised (DeleteThread (AgentThread.id thread)) e'])
           (stdout w1) (environ w1)))
  /\ (forall u w2,
      cleanup svc g client agent thread w1 = (Ok u, w2) ->
      run_queries svc g client agent thread user_inputs w = (Raise e, w2)
      /\ calls w2 = calls w1 ++ map returned (deletion_calls g agent thread)
      /\ stdout w2 = stdout w1 ++ [CLEANED_UP]).
Proof.
  intro Hloop. split.
  - intros e' r1 H1. unfold run_queries, try_finally. rewrite Hloop.
    rewrite (cleanup_thread_raises svc g client agent thread w1 e' r1 H1). reflexivity.
  - intros u w2 Hc. split.
    + unfold run_queries, try_finally. rewrite Hloop, Hc. reflexivity.
    + apply cleanup_ok_inv in Hc. exact Hc.
Qed.

(** ** [process_query] and the loop on their failure paths *)

Lemma print_text_blocks_key_error (before : list ContentBlock) (b : ContentBlock)
    (after : list ContentBlock) (w : World R) :
  forallb has_payload before = true ->
  is_text_block b = true ->
  text b = None ->
  print_text_blocks (before ++ b :: after) w
  = (Raise (KeyError "text"),
     Build_World (remote w) (calls w)
       (stdout w ++ map answer_line (filter is_text_block before)) (environ w)).
Proof.
  intros Hp Hb Ht.
  pose proof (print_text_blocks_ok before w Hp) as Hok.
  unfold print_text_blocks in *. rewrite for_each_app, Hok.
  cbn [for_each]. unfold bind at 1.
  unfold is_text_block in Hb. rewrite Hb, Ht. reflexivity.
Qed.

(** X10.  A text-type block without its "text" key makes [process_query]
    raise KeyError "text".  The three remote calls have been made by then;
    the text blocks that precede the faulty one have been printed; the blocks
    after it and the closing separator are not. *)
Theorem process_query_key_error (pc : Client) (agent : AzureAIAgent.t)
    (thread_id : Id) (user_query : string) (w : World R)
    (m first_msg : Message) (older : list Message) (run : ThreadRun.t)
    (msgs : MessageList) (r1 r2 r3 : R)
    (before : list ContentBlock) (b : ContentBlock) (after : list ContentBlock) :
  svc_create_message svc thread_id USER user_query (remote w) = (Ok m, r1) ->
  svc_create_and_process_run svc thread_id (AzureAIAgent.id agent) r1 = (Ok run, r2) ->
  svc_list_messages svc thread_id r2 = (Ok msgs, r3) ->
  data msgs = Some (first_msg :: older) ->
  content first_msg = Some (before ++ b :: after) ->
  forallb has_payload before = true ->
  is_text_block b = true ->
  text b = None ->
  process_query svc pc agent thread_id user_query w
  = (Raise (KeyError "text"),
     Build_World r3
       (calls w ++ map returned (query_calls thread_id (AzureAIAgent.id agent) user_query))
       (stdout w
        ++ [nl +++ "Processing query: " +++ user_query; "Responses:"]
        ++ map answer_line (filter is_text_block before))
       (environ w)).
Proof.
  intros H1 H2 H3 Hd Hc Hp Hb Ht.
  rewrite (process_query_fetched svc pc agent _ _ w m run msgs r1 r2 r3 H1 H2 H3).
  rewrite Hd. cbn [get]. rewrite Hc. cbn [get]. unfold bind.
  rewrite (print_text_blocks_key_error before b after _ Hp Hb Ht).
  cbn [remote calls stdout environ]. rewrite <- app_assoc. reflexivity.
Qed.

(** X11.  [process_query] stops at its first failing call.  If the append
    raises, no run is triggered and no listing fetched; if the run raises, no
    listing is fetched; if the listing raises, nothing is printed after the
    query header.  In each case the exception leaves [process_query] and the
    remote state is the one the failed call left. *)
Theorem process_query_stops_at_first_failure (pc : Client) (agent : AzureAIAgent.t)
    (thread_id : Id) (user_query : string) (w : World R) :
  (forall e r1,
      svc_create_message svc thread_id USER user_query (remote w) = (Raise e, r1) ->
      process_query svc pc agent thread_id user_query w
      = (Raise e,
         Build_World r1
           (calls w ++ [raised (CreateMessage thread_id USER user_query) e])
           (stdout w ++ [nl +++ "Processing query: " +++ user_query])
           (environ w)))
  /\ (forall m e r1 r2,
      svc_create_message svc thread_id USER user_query (remote w) = (Ok m, r1) ->
      svc_create_and_process_run svc thread_id (AzureAIAgent.id agent) r1 = (Raise e, r2) ->
      process_query svc pc agent thread_id user_query w
      = (Raise e,
         Build_World r2
           (calls w ++ [returned (CreateMessage thread_id USER user_query);
                        raised (CreateAndProcessRun thread_id (AzureAIAgent.id agent)) e])
           (stdout w ++ [nl +++ "Processing query: " +++ user_query])
           (environ w)))
  /\ (forall m run e r1 r2 r3,
      svc_create_message svc thread_id USER user_query (remote w) = (Ok m, r1) ->
      svc_create_and_process_run svc thread_id (AzureAIAgent.id agent) r1 = (Ok run, r2) ->
      svc_list_messages svc thread_id r2 = (Raise e, r3) ->
      process_query svc pc agent thread_id user_query w
      = (Raise e,
         Build_World r3
           (calls w ++ [returned (CreateMessage thread_id USER user_query);
                        returned (CreateAndProcessRun thread_id (AzureAIAgent.id agent));
                        raised (ListMessages thread_id) e])
           (stdout w ++ [nl +++ "Processing query: " +++ user_query])
           (environ w))).
Proof.
  split; [| split]; intros.
  - now apply process_query_create_message_raises.
  - now apply process_query_run_raises with (m := m) (r1 := r1).
  - now apply process_query_list_raises with (m := m) (run := run) (r1 := r1) (r2 := r2).
Qed.

(** X12.  Whatever the service does, the query loop never skips, repeats or
    reorders a call: the calls it has issued when it ends, normally or not,
    are an initial segment of create message, run, list messages for the
    first query, then the same for the second, and so on in the order of the
    list. *)
Theorem query_loop_never_reorders (pc : Client) (agent : AzureAIAgent.t)
    (thread_id : Id) (user_inputs : list string) (w : World R) :
  exists rest : list Call,
    flat_map (query_calls thread_id (AzureAIAgent.id agent)) user_inputs
    = map ev_call
        (issued_after w (snd (query_loop svc pc agent thread_id user_inputs w)))
      ++ rest.
Proof.
  destruct (query_loop_calls_prefix svc pc agent thread_id user_inputs w)
    as [evs [rest [Hc Hp]]].
  exists rest. rewrite (issued_after_app _ _ _ Hc). exact Hp.
Qed.

(** X13.  The loop stops at the first query that raises, whatever raised
    (the append, the run, the listing or the reading of the answer): the
    queries after it change nothing, the loop ends in the world and with the
    exception that query left. *)
Theorem query_loop_stops_at_first_failing_query (pc : Client) (agent : AzureAIAgent.t)
    (thread_id : Id) (before : list string) (user_query : string)
    (after : list string) (w w1 w2 : World R) (e : Exn) :
  query_loop svc pc agent thread_id before w = (Ok tt, w1) ->
  process_query svc pc agent thread_id user_query w1 = (Raise e, w2) ->
  query_loop svc pc agent thread_id (before ++ user_query :: after) w = (Raise e, w2).
Proof.
  intros Hloop Hq. unfold query_loop in *.
  rewrite for_each_app, Hloop. cbn [for_each]. unfold bind at 1. rewrite Hq. reflexivity.
Qed.

End More.

(** ** The further properties at work on the in-memory service *)

Lemma nothing_happens_without_connection_string_witness :
  lookup CONNECTION_KEY (environ Faults.unconfigured) = None
  /\ notebook Run.healthy Faults.unconfigured
     = (Raise (KeyError CONNECTION_KEY), Faults.unconfigured).
Proof.
  split; [reflexivity |].
  exact (proj2 (proj2 (nothing_happens_without_connection_string Run.healthy
                         Faults.provisioned_globals Faults.unconfigured eq_refl))).
Defined.

Lemma failed_upload_ends_the_notebook_witness :
  Fake.upload_file_and_poll
    (Fake.Build_Config (fun _ => Faults.is_upload) Scenario.canned Scenario.whole_log)
    "document.md" AGENTS Fake.empty
  = (Raise Run.ERR, Fake.empty)
  /\ notebook (Faults.failing Faults.is_upload) Fake.world0
     = (Raise Run.ERR,
        Build_World Fake.empty [raised (UploadFile "document.md" AGENTS) Run.ERR] []
          Scenario.env).
Proof.
  split; [reflexivity |].
  refine (proj1 (failed_upload_ends_the_notebook (Faults.failing Faults.is_upload)
                   Fake.world0 "endpoint;subscription;group;project" Scenario.the_client
                   Run.ERR Fake.empty _ _ _)).
  - reflexivity.
  - reflexivity.
  - reflexivity.
Defined.

Lemma failed_store_creation_leaks_the_file_witness :
  fst (notebook (Faults.failing Faults.is_create_store) Fake.world0) = Raise Run.ERR
  /\ owned (issued_after Fake.world0
              (snd (notebook (Faults.failing Faults.is_create_store) Fake.world0)))
     = [FileResource "file_1"]
  /\ Fake.files (remote (snd (notebook (Faults.failing Faults.is_create_store)
                                Fake.world0)))
     = ["file_1"].
Proof.
  pose proof (failed_store_creation_leaks_the_file (Faults.failing Faults.is_create_store)
                Fake.world0 "endpoint;subscription;group;project" Scenario.the_client
                Scenario.the_file Run.ERR Faults.uploaded_state Faults.uploaded_state
                eq_refl eq_refl eq_refl eq_refl) as [Hn Ho].
  split; [rewrite Hn; reflexivity | split; [exact Ho | rewrite Hn; reflexivity]].
Defined.

Lemma no_cleanup_before_the_try_witness :
  main (Faults.failing Faults.is_create_agent) Faults.provisioned_globals Run.provisioned
  = (Raise Run.ERR,
     Build_World (remote Run.provisioned)
       (calls Run.provisioned
        ++ [raised (create_agent_call (bind_tools Scenario.the_store)) Run.ERR])
       (stdout Run.provisioned) Scenario.env)
  /\ owned (issued_after Run.provisioned
              (snd (main (Faults.failing Faults.is_create_thread)
                      Faults.provisioned_globals Run.provisioned)))
     = [AgentResource "agent_3"]
  /\ count_calls Scenario.is_delete_agent
       (calls (snd (main (Faults.failing Faults.is_create_thread)
                      Faults.provisioned_globals Run.provisioned))) = 0.
Proof.
  split; [| split].
  - refine (proj1 (no_cleanup_before_the_try (Faults.failing Faults.is_create_agent)
                     Faults.provisioned_globals Run.provisioned
                     "endpoint;subscription;group;project" Scenario.the_client
                     eq_refl eq_refl)
              Run.ERR (remote Run.provisioned) _).
    reflexivity.
  - refine (proj2 (proj2 (no_cleanup_before_the_try (Faults.failing Faults.is_create_thread)
                            Faults.provisioned_globals Run.provisioned
                            "endpoint;subscription;group;project" Scenario.the_client
                            eq_refl eq_refl)
                     (Agent.Build "agent_3") Run.ERR Faults.agent_state Faults.agent_state
                     _ _)).
    + reflexivity.
    + reflexivity.
  - vm_compute. reflexivity.
Defined.

Lemma notebook_deletes_what_it_created_witness :
  fst (notebook Run.healthy Fake.world0) = Ok tt
  /\ owned (issued_after Fake.world0 (snd (notebook Run.healthy Fake.world0))) = []
  /\ length (issued_after Fake.world0 (snd (notebook Run.healthy Fake.world0))) = 14.
Proof.
  assert (H : notebook Run.healthy Fake.world0
              = (Ok tt, snd (notebook Run.healthy Fake.world0)))
    by (vm_compute; reflexivity).
  destruct (notebook_deletes_what_it_created Run.healthy _ _ H)
    as [f [vs [a [t [Hc Ho]]]]].
  split; [vm_compute; reflexivity | split; [exact Ho |]].
  rewrite Hc. cbn. reflexivity.
Defined.

(** The run of the second of three queries raises; the cleanup returns, and
    the four resources created before the [try] are owned no more. *)
Lemma completed_cleanup_releases_everything_witness :
  fst (run_queries Run.second_run_fails Scenario.globals Scenario.the_client
         Scenario.the_agent Scenario.the_thread [Faults.Q1; Faults.Q2; Faults.Q3]
         Faults.started) = Raise Run.ERR
  /\ owned (calls Faults.started)
     = [ FileResource "file_1"; VectorStoreResource "vs_2"; AgentResource "agent_3";
         ThreadResource "thread_4" ]
  /\ ~ In (FileResource "file_1")
         (owned (calls (snd (run_queries Run.second_run_fails Scenario.globals
                               Scenario.the_client Scenario.the_agent Scenario.the_thread
                               [Faults.Q1; Faults.Q2; Faults.Q3] Faults.started))))
  /\ ~ In (AgentResource "agent_3")
         (owned (calls (snd (run_queries Run.second_run_fails Scenario.globals
                               Scenario.the_client Scenario.the_agent Scenario.the_thread
                               [Faults.Q1; Faults.Q2; Faults.Q3] Faults.started)))).
Proof.
  assert (H : fst (cleanup Run.second_run_fails Scenario.globals Scenario.the_client
                     Scenario.the_agent Scenario.the_thread
                     (snd (query_loop Run.second_run_fails
                             (project_client Scenario.globals) Scenario.the_agent
                             (AgentThread.id Scenario.the_thread)
                             [Faults.Q1; Faults.Q2; Faults.Q3] Faults.started)))
              = Ok tt) by (vm_compute; reflexivity).
  destruct (completed_cleanup_releases_everything Run.second_run_fails Scenario.globals
              Scenario.the_client Scenario.the_agent Scenario.the_thread
              [Faults.Q1; Faults.Q2; Faults.Q3] Faults.started H) as [Hr _].
  split; [vm_compute; reflexivity | split; [vm_compute; reflexivity | split]].
  - apply Hr. cbn. right. right. left. reflexivity.
  - apply Hr. cbn. right. left. reflexivity.
Defined.

(** A broken answer ends the loop with KeyError; with an undeletable thread
    the statement ends with the service error, which carries the KeyError as
    its context, and with a healthy cleanup it ends with the KeyError after
    the closing line. *)
Lemma cleanup_failure_chains_query_failure_witness :
  fst (query_loop Faults.broken_and_thread_undeletable Scenario.the_client
         Scenario.the_agent "thread_4" user_inputs Faults.started)
  = Raise (KeyError "text")
  /\ fst (run_queries Faults.broken_and_thread_undeletable Scenario.globals
            Scenario.the_client Scenario.the_agent Scenario.the_thread user_inputs
            Faults.started)
     = Raise (Chained Run.ERR (KeyError "text"))
  /\ fst (run_queries Faults.broken Scenario.globals Scenario.the_client
            Scenario.the_agent Scenario.the_thread user_inputs Faults.started)
     = Raise (KeyError "text").
Proof.
  split; [vm_compute; reflexivity | split].
  - assert (Hl : query_loop Faults.broken_and_thread_undeletable
                   (project_client Scenario.globals) Scenario.the_agent
                   (AgentThread.id Scenario.the_thread) user_inputs Faults.started
                 = (Raise (KeyError "text"),
                    snd (query_loop Faults.broken_and_thread_undeletable
                           Scenario.the_client Scenario.the_agent "thread_4"
                           user_inputs Faults.started)))
      by (vm_compute; reflexivity).
    rewrite (proj1 (cleanup_failure_chains_query_failure
                      Faults.broken_and_thread_undeletable Scenario.globals
                      Scenario.the_client Scenario.the_agent Scenario.the_thread
                      user_inputs Faults.started _ (KeyError "text") Hl)
               Run.ERR
               (Scenario.with_log [Faults.broken_message; text_message USER Faults.Q1])
               eq_refl).
    reflexivity.
  - assert (Hc : cleanup Faults.broken Scenario.globals Scenario.the_client
                   Scenario.the_agent Scenario.the_thread
                   (snd (query_loop Faults.broken Scenario.the_client Scenario.the_agent
                           "thread_4" user_inputs Faults.started))
                 = (Ok tt,
                    snd (cleanup Faults.broken Scenario.globals Scenario.the_client
                           Scenario.the_agent Scenario.the_thread
                           (snd (query_loop Faults.broken Scenario.the_client
                                   Scenario.the_agent "thread_4" user_inputs
                                   Faults.started)))))
      by (vm_compute; reflexivity).
    assert (Hl : query_loop Faults.broken (project_client Scenario.globals)
                   Scenario.the_agent (AgentThread.id Scenario.the_thread) user_inputs
                   Faults.started
                 = (Raise (KeyError "text"),
                    snd (query_loop Faults.broken Scenario.the_client Scenario.the_agent
                           "thread_4" user_inputs Faults.started)))
      by (vm_compute; reflexivity).
    destruct (proj2 (cleanup_failure_chains_query_failure Faults.broken Scenario.globals
                       Scenario.the_client Scenario.the_agent Scenario.the_thread
                       user_inputs Faults.started _ (KeyError "text") Hl) tt _ Hc)
      as [Hr _].
    rewrite Hr. reflexivity.
Defined.

(** The first text block is printed, the block without payload raises, the
    third block and the separator are never printed. *)
Lemma process_query_key_error_witness :
  content Faults.broken_message
  = Some ([text_block "Coverage includes X"]
          ++ {| type := Some "text"; text := None |} :: [text_block "never printed"])
  /\ Run.ask Faults.broken
     = (Raise (KeyError "text"),
        Build_World
          (Scenario.with_log [Faults.broken_message; text_message USER Scenario.QUERY])
          (map returned (query_calls "thread_4" "agent_3" Scenario.QUERY))
          [nl +++ "Processing query: " +++ Scenario.QUERY; "Responses:";
           "Text: Coverage includes X"]
          Scenario.env).
Proof.
  split; [reflexivity |].
  refine (process_query_key_error Faults.broken Scenario.the_client Scenario.the_agent
            "thread_4" Scenario.QUERY Scenario.ready
            (text_message USER Scenario.QUERY) Faults.broken_message
            [text_message USER Scenario.QUERY] (ThreadRun.Build "completed")
            {| data := Some [Faults.broken_message; text_message USER Scenario.QUERY] |}
            (Scenario.with_log [text_message USER Scenario.QUERY])
            (Scenario.with_log [Faults.broken_message; text_message USER Scenario.QUERY])
            (Scenario.with_log [Faults.broken_message; text_message USER Scenario.QUERY])
            [text_block "Coverage includes X"]
            {| type := Some "text"; text := None |}
            [text_block "never printed"]
            _ _ _ _ _ _ _ _).
  - vm_compute; reflexivity.
  - vm_compute; reflexivity.
  - vm_compute; reflexivity.
  - reflexivity.
  - reflexivity.
  - reflexivity.
  - reflexivity.
  - reflexivity.
Defined.

(** A failing append, a failing run and a failing listing, each against the
    ready world. *)
Lemma process_query_stops_at_first_failure_witness :
  map ev_call (calls (snd (Run.ask (Faults.failing Faults.is_create_message))))
  = [CreateMessage "thread_4" USER Scenario.QUERY]
  /\ map ev_call (calls (snd (Run.ask Run.runs_fail)))
     = [CreateMessage "thread_4" USER Scenario.QUERY;
        CreateAndProcessRun "thread_4" "agent_3"]
  /\ stdout (snd (Run.ask (Faults.failing Faults.is_list)))
     = [nl +++ "Processing query: " +++ Scenario.QUERY].
Proof.
  pose proof (process_query_stops_at_first_failure (Faults.failing Faults.is_create_message)
                Scenario.the_client Scenario.the_agent "thread_4" Scenario.QUERY
                Scenario.ready) as [H1 _].
  pose proof (process_query_stops_at_first_failure Run.runs_fail
                Scenario.the_client Scenario.the_agent "thread_4" Scenario.QUERY
                Scenario.ready) as [_ [H2 _]].
  pose proof (process_query_stops_at_first_failure (Faults.failing Faults.is_list)
                Scenario.the_client Scenario.the_agent "thread_4" Scenario.QUERY
                Scenario.ready) as [_ [_ H3]].
  unfold Run.ask. split; [| split].
  - rewrite (H1 Run.ERR Scenario.ready_state eq_refl). reflexivity.
  - rewrite (H2 (text_message USER Scenario.QUERY) Run.ERR
               (Scenario.with_log [text_message USER Scenario.QUERY])
               (Scenario.with_log [text_message USER Scenario.QUERY])
               eq_refl eq_refl).
    reflexivity.
  - rewrite (H3 (text_message USER Scenario.QUERY) (ThreadRun.Build "completed") Run.ERR
               (Scenario.with_log [text_message USER Scenario.QUERY])
               (Scenario.with_log [text_message ASSISTANT "Coverage includes X";
                                   text_message USER Scenario.QUERY])
               (Scenario.with_log [text_message ASSISTANT "Coverage includes X";
                                   text_message USER Scenario.QUERY])
               eq_refl eq_refl eq_refl).
    reflexivity.
Defined.

(** The run of the second query raises: the third query is never sent. *)
Lemma query_loop_stops_at_first_failing_query_witness :
  fst (query_loop Run.second_run_fails Scenario.the_client Scenario.the_agent "thread_4"
         [Faults.Q1] Scenario.ready) = Ok tt
  /\ fst (query_loop Run.second_run_fails Scenario.the_client Scenario.the_agent
            "thread_4" ([Faults.Q1] ++ Faults.Q2 :: [Faults.Q3]) Scenario.ready)
     = Raise Run.ERR
  /\ appends (calls (snd (query_loop Run.second_run_fails Scenario.the_client
                            Scenario.the_agent "thread_4"
                            ([Faults.Q1] ++ Faults.Q2 :: [Faults.Q3]) Scenario.ready)))
     = [("thread_4", USER, Faults.Q1); ("thread_4", USER, Faults.Q2)].
Proof.
  assert (Hl : query_loop Run.second_run_fails Scenario.the_client Scenario.the_agent
                 "thread_4" [Faults.Q1] Scenario.ready
               = (Ok tt,
                  snd (query_loop Run.second_run_fails Scenario.the_client
                         Scenario.the_agent "thread_4" [Faults.Q1] Scenario.ready)))
    by (vm_compute; reflexivity).
  assert (Hq : process_query Run.second_run_fails Scenario.the_client Scenario.the_agent
                 "thread_4" Faults.Q2
                 (snd (query_loop Run.second_run_fails Scenario.the_client
                         Scenario.the_agent "thread_4" [Faults.Q1] Scenario.ready))
               = (Raise Run.ERR,
                  snd (process_query Run.second_run_fails Scenario.the_client
                         Scenario.the_agent "thread_4" Faults.Q2
                         (snd (query_loop Run.second_run_fails Scenario.the_client
                                 Scenario.the_agent "thread_4" [Faults.Q1]
                                 Scenario.ready)))))
    by (vm_compute; reflexivity).
  pose proof (query_loop_stops_at_first_failing_query Run.second_run_fails
                Scenario.the_client Scenario.the_agent "thread_4" [Faults.Q1] Faults.Q2
                [Faults.Q3] Scenario.ready _ _ Run.ERR Hl Hq) as H.
  split; [vm_compute; reflexivity | split].
  - rewrite H. reflexivity.
  - rewrite H. vm_compute. reflexivity.
Defined.

(** A connection string without its four parts: the constructor raises
    ValueError and no call is made. *)
Lemma rejected_connection_string_stops_everything_witness :
  Fake.connect "endpoint-only" = Raise (ValueError "Invalid connection string format")
  /\ notebook Run.healthy
       (Build_World Fake.empty [] [] [(CONNECTION_KEY, "endpoint-only")])
     = (Raise (ValueError "Invalid connection string format"),
        Build_World Fake.empty [] [] [(CONNECTION_KEY, "endpoint-only")])
  /\ main Run.healthy Faults.provisioned_globals
       (Build_World Fake.empty [] [] [(CONNECTION_KEY, "")])
     = (Raise (ValueError "Connection string is required"),
        Build_World Fake.empty [] [] [(CONNECTION_KEY, "")]).
Proof.
  split; [reflexivity | split].
  - exact (proj2 (proj1 (rejected_connection_string_stops_everything Run.healthy
                           Faults.provisioned_globals
                           (Build_World Fake.empty [] [] [(CONNECTION_KEY, "endpoint-only")])
                           "endpoint-only" eq_refl)
                    (ValueError "Invalid connection string format") eq_refl)).
  - exact (proj2 (rejected_connection_string_stops_everything Run.healthy
                    Faults.provisioned_globals
                    (Build_World Fake.empty [] [] [(CONNECTION_KEY, "")])
                    "" eq_refl)
             (ValueError "Connection string is required") eq_refl).
Defined.
